(** * Sharda attendance client: session handlers and adaptive table layout

    A shallow embedding of the logic of [src/App.js] (the [App] component):
    the React state cells, the handlers that update them, the effect that
    derives the table headers and column widths from the fetched records, and
    the cell renderer.

    Conventions of the embedding.
    - A JavaScript string is a [string]; one [ascii] stands for one UTF-16
      code unit below 256, and the white-space and case tables below are
      the rows of the JavaScript ones for these code units.
    - A number stored in a record is carried as the text [String] prints
      for it: the component measures and shows field values, it never
      computes with them.
    - A record inherits the members of [Object.prototype]; so does the
      object that holds the column widths.
    - An [async] handler is split at its network [await]: the part that runs
      when the button is pressed returns the new state and the request it
      issued (if any); the continuation takes the reply.  Other handlers may
      run between the two.
    - [AsyncStorage] is a finite map from keys to strings; whether an awaited
      storage call resolves or rejects is an input of the handler.
    - Styling, icons and the loading animation are not modelled. *)

From Stdlib Require Import ZArith Ascii String List Permutation.
From stdpp Require Import gmap strings list fin_maps.

Local Open Scope Z_scope.
Local Open Scope string_scope.

(** ** JavaScript primitives used by the component *)

Module Js.

(** Truthiness of a string: only the empty string is falsy. *)
Definition truthy (s : string) : bool :=
  match s with
  | EmptyString => false
  | String _ _ => true
  end.

(** [o || d] for an optional string [o] ([None] for [undefined]). *)
Definition or_else (o : option string) (d : string) : string :=
  match o with
  | Some s => if truthy s then s else d
  | None => d
  end.

(** White space and line terminators removed by [String.prototype.trim]:
    TAB, LF, VT, FF, CR, SPACE and NO-BREAK SPACE (code unit 160). *)
Definition is_white_space (c : ascii) : bool :=
  let n := nat_of_ascii c in
  ((9 <=? n)%nat && (n <=? 13)%nat) || (n =? 32)%nat || (n =? 160)%nat.

Fixpoint trimStart (s : string) : string :=
  match s with
  | EmptyString => EmptyString
  | String c rest => if is_white_space c then trimStart rest else s
  end.

Fixpoint trimEnd (s : string) : string :=
  match s with
  | EmptyString => EmptyString
  | String c rest =>
      match trimEnd rest with
      | EmptyString => if is_white_space c then EmptyString else String c EmptyString
      | kept => String c kept
      end
  end.

Definition trim (s : string) : string := trimEnd (trimStart s).

(** Every character of the string is white space (the empty string
    included). *)
Fixpoint white_space_only (s : string) : bool :=
  match s with
  | EmptyString => true
  | String c rest => is_white_space c && white_space_only rest
  end.

(** The character class [[A-Z]]. *)
Definition is_upper (c : ascii) : bool :=
  let n := nat_of_ascii c in (65 <=? n)%nat && (n <=? 90)%nat.

Definition is_lower (c : ascii) : bool :=
  let n := nat_of_ascii c in (97 <=? n)%nat && (n <=? 122)%nat.

(** [toUpperCase] on a string of one character: [a-z] and the small
    letters 224-254 of Latin-1 (247, the division sign, apart) move down by
    32, the sharp s (223) becomes "SS".  The capitals of 181 and 255 lie
    above code unit 255, outside this alphabet; both are kept as they
    are. *)
Definition toUpperCase_char (c : ascii) : string :=
  let n := nat_of_ascii c in
  if is_lower c then String (ascii_of_nat (n - 32)) EmptyString
  else if (n =? 223)%nat then "SS"
  else if ((224 <=? n)%nat && (n <=? 254)%nat) && negb (n =? 247)%nat
       then String (ascii_of_nat (n - 32)) EmptyString
  else String c EmptyString.

(** [s.replace(/([A-Z])/g, " $1")]. *)
Fixpoint space_before_upper (s : string) : string :=
  match s with
  | EmptyString => EmptyString
  | String c rest =>
      if is_upper c
      then String " "%char (String c (space_before_upper rest))
      else String c (space_before_upper rest)
  end.

(** What reading a field of a record can give: the scalar values of the
    JSON body, a number being carried as the text [String] prints for it
    ("92", "0.5", "1e+21"), and the members every object inherits from
    [Object.prototype]. *)
Inductive value : Type :=
| VString (s : string)
| VNumber (printed : string)
| VBoolean (b : bool)
| VNull
| VInherited (name : string).

(** The property names of [Object.prototype]. *)
Definition Object_prototype : list string :=
  ["constructor"; "hasOwnProperty"; "isPrototypeOf"; "propertyIsEnumerable";
   "toLocaleString"; "toString"; "valueOf"; "__proto__";
   "__defineGetter__"; "__defineSetter__"; "__lookupGetter__"; "__lookupSetter__"].

Definition inherits (name : string) : bool :=
  existsb (String.eqb name) Object_prototype.

(** [String(v)], where [None] is [undefined].  [__proto__] reads as
    [Object.prototype] itself; the other inherited members are built-in
    functions, printed as Hermes and V8 print them ([constructor] is the
    function [Object]). *)
Definition String_ (v : option value) : string :=
  match v with
  | None => "undefined"
  | Some (VString s) => s
  | Some (VNumber printed) => printed
  | Some (VBoolean true) => "true"
  | Some (VBoolean false) => "false"
  | Some VNull => "null"
  | Some (VInherited name) =>
      if String.eqb name "__proto__" then "[object Object]"
      else "function "
           ++ (if String.eqb name "constructor" then "Object" else name)
           ++ "() { [native code] }"
  end.

(** [s.length] as a number. *)
Definition length (s : string) : Z := Z.of_nat (String.length s).

End Js.

(** ** Records and the column-width computation (lines 105-130) *)

Module Layout.
Import Js.

(** One attendance record: its own properties in the order [Object.keys]
    lists them.  (The keys of a JavaScript object are distinct; nothing below
    relies on it.) *)
Definition record : Type := list (string * value).

Definition Object_keys (r : record) : list string := map fst r.

(** The own property [header] of a record, if it has one. *)
Fixpoint own (r : record) (header : string) : option value :=
  match r with
  | [] => None
  | (k, v) :: rest => if String.eqb k header then Some v else own rest header
  end.

(** [row[header]]: the own property, else the member inherited from
    [Object.prototype], else [undefined]. *)
Definition get (r : record) (header : string) : option value :=
  match own r header with
  | Some v => Some v
  | None => if inherits header then Some (VInherited header) else None
  end.

(** [header.length * 10 + 24], the starting value of [maxWidth]. *)
Definition headerWidth (header : string) : Z := Js.length header * 10 + 24.

(** [cellWidth] of one row in the column [header]. *)
Definition cellWidth (header : string) (row : record) : Z :=
  let cellValue := String_ (get row header) in
  Js.length cellValue * 8 + 24.

(** The inner [attendance.forEach]: the running maximum. *)
Definition maxWidth (attendance : list record) (header : string) : Z :=
  fold_left (fun maxWidth row => Z.max maxWidth (cellWidth header row))
            attendance (headerWidth header).

(** [Math.min(Math.max(maxWidth, 100), 200)]. *)
Definition clamp (w : Z) : Z := Z.min (Z.max w 100) 200.

Definition columnWidth (attendance : list record) (header : string) : Z :=
  clamp (maxWidth attendance header).

(** [widths[header] = n] on the plain object [widths]: an own property is
    written, except under the name [__proto__], where the assignment goes
    to the inherited setter, which ignores a number. *)
Definition assign (header : string) (n : Z) (widths : gmap string Z)
  : gmap string Z :=
  if String.eqb header "__proto__" then widths else <[header := n]> widths.

(** The outer [headers.forEach], filling the object [widths]. *)
Definition widthsOf (attendance : list record) (headers : list string)
  : gmap string Z :=
  fold_left (fun widths header => assign header (columnWidth attendance header) widths)
            headers ∅.

(** The label shown in a header cell (lines 303-304). *)
Definition headerLabel (header : string) : string :=
  match header with
  | EmptyString => EmptyString
  | String c rest => toUpperCase_char c ++ space_before_upper rest
  end.

End Layout.

(** ** The component: state cells and handlers *)

Module App.
Import Js Layout.

(** The [loading] object (lines 34-39). *)
Record Loading : Type := mkLoading {
  register : bool;
  login : bool;
  fetch : bool;
  gmailAuth : bool
}.

(** What the [error] cell can hold: a text, or the body object of a failed
    reply, which [setError] stores as it is (the view cannot render it). *)
Inductive ErrorValue : Type :=
| ErrorText (text : string)
| ErrorObject.

Coercion ErrorText : string >-> ErrorValue.

(** Truthiness of the [error] cell: an object is truthy. *)
Definition truthy_error (e : ErrorValue) : bool :=
  match e with
  | ErrorText text => truthy text
  | ErrorObject => true
  end.

(** The [useState] cells of the component together with the contents of
    [AsyncStorage]. *)
Record State : Type := mkState {
  systemId : string;
  password : string;
  jwtToken : string;
  attendance : option (list record);
  loading : Loading;
  message : string;
  error : ErrorValue;
  tableHeaders : list string;
  columnWidths : gmap string Z;
  storage : gmap string string
}.

(** The initial values passed to [useState] (lines 30-44), over a given
    storage. *)
Definition initialState (stored : gmap string string) : State :=
  mkState "" "" "" None (mkLoading false false false false) "" "" [] ∅ stored.

(** *** State setters *)

Definition setJwtToken (t : string) (st : State) : State :=
  mkState (systemId st) (password st) t (attendance st) (loading st)
          (message st) (error st) (tableHeaders st) (columnWidths st) (storage st).

Definition setAttendance (a : option (list record)) (st : State) : State :=
  mkState (systemId st) (password st) (jwtToken st) a (loading st)
          (message st) (error st) (tableHeaders st) (columnWidths st) (storage st).

Definition setLoading (f : Loading -> Loading) (st : State) : State :=
  mkState (systemId st) (password st) (jwtToken st) (attendance st) (f (loading st))
          (message st) (error st) (tableHeaders st) (columnWidths st) (storage st).

Definition setMessage (m : string) (st : State) : State :=
  mkState (systemId st) (password st) (jwtToken st) (attendance st) (loading st)
          m (error st) (tableHeaders st) (columnWidths st) (storage st).

Definition setError (e : ErrorValue) (st : State) : State :=
  mkState (systemId st) (password st) (jwtToken st) (attendance st) (loading st)
          (message st) e (tableHeaders st) (columnWidths st) (storage st).

Definition setTableHeaders (h : list string) (st : State) : State :=
  mkState (systemId st) (password st) (jwtToken st) (attendance st) (loading st)
          (message st) (error st) h (columnWidths st) (storage st).

Definition setColumnWidths (w : gmap string Z) (st : State) : State :=
  mkState (systemId st) (password st) (jwtToken st) (attendance st) (loading st)
          (message st) (error st) (tableHeaders st) w (storage st).

Definition setStorage (s : gmap string string) (st : State) : State :=
  mkState (systemId st) (password st) (jwtToken st) (attendance st) (loading st)
          (message st) (error st) (tableHeaders st) (columnWidths st) s.

(** [{ ...prev, register: b }] and its three siblings. *)
Definition with_register (b : bool) (prev : Loading) : Loading :=
  mkLoading b (login prev) (fetch prev) (gmailAuth prev).
Definition with_login (b : bool) (prev : Loading) : Loading :=
  mkLoading (register prev) b (fetch prev) (gmailAuth prev).
Definition with_fetch (b : bool) (prev : Loading) : Loading :=
  mkLoading (register prev) (login prev) b (gmailAuth prev).

(** *** AsyncStorage *)

(** Whether an awaited storage call resolved or rejected. *)
Inductive StorageResult : Type := Resolved | Rejects.

Definition setItem (key val : string) (st : State) : State :=
  setStorage (<[key := val]> (storage st)) st.

Definition removeItem (key : string) (st : State) : State :=
  setStorage (delete key (storage st)) st.

(** *** The column-width effect (lines 105-130)

    The effect depends on [attendance] alone, so it runs after a render in
    which [setAttendance] installed a new value. *)
Definition useEffect_attendance (st : State) : State :=
  match attendance st with
  | Some (first :: rest) =>
      let headers := Object_keys first in
      setColumnWidths (widthsOf (first :: rest) headers)
        (setTableHeaders headers st)
  | _ => st
  end.

(** [setAttendance] and the effect its change triggers. *)
Definition replaceAttendance (a : option (list record)) (st : State) : State :=
  useEffect_attendance (setAttendance a st).

(** *** Session status

    The component keeps no status cell: the view shows the signed-in
    screen exactly when [jwtToken] is truthy (lines 364 and 370). *)
Inductive Status : Type := LoggedOut | Authenticating | Active | Expired.

Definition status (st : State) : Status :=
  if truthy (jwtToken st) then Active else LoggedOut.

(** *** Requests and replies *)

Inductive Request : Type :=
| PostRegister (systemId password : string)
| PostLogin (systemId password : string)
| PostAttendance (bearer : string).

(** [err.response?.data] of a rejected request: nothing (no response, or
    no body), a text, or a JSON object with its [message] member when that
    is a text. *)
Inductive ResponseData : Type :=
| NoData
| DataText (text : string)
| DataObject (message : option string).

(** A rejected request: [err.response?.status] and [err.response?.data]. *)
Record Failure : Type := mkFailure {
  response_status : option Z;
  response_data : ResponseData
}.

(** [err.response?.data?.message || err.response?.data || fallback]: the
    message of an object body when it is non-empty, else the body itself
    when it is truthy (a non-empty text, or any object), else the
    fallback. *)
Definition failure_value (err : Failure) (fallback : string) : ErrorValue :=
  match response_data err with
  | NoData => fallback
  | DataText text => if truthy text then text else fallback
  | DataObject (Some m) => if truthy m then ErrorText m else ErrorObject
  | DataObject None => ErrorObject
  end.

Inductive Reply (A : Type) : Type :=
| Fulfilled (data : A)
| Failed (err : Failure).
Arguments Fulfilled {A} data.
Arguments Failed {A} err.

(** *** Handlers *)

Definition clearMessages (st : State) : State := setMessage "" (setError "" st).

(** [handleRegister] up to its [axios.post] (lines 137-146). *)
Definition handleRegister (st : State) : State * option Request :=
  let st := clearMessages st in
  if negb (truthy (trim (systemId st))) || negb (truthy (trim (password st)))
  then (setError "Please provide both system ID and password." st, None)
  else (setLoading (with_register true) st,
        Some (PostRegister (systemId st) (password st))).

(** [handleRegister] from the reply on (lines 151-162); [id] is the
    [systemId] the call was made with, [reply] carries
    [response.data.message]. *)
Definition handleRegister_resume (id : string) (reply : Reply (option string))
  (stored : StorageResult) (st : State) : State :=
  let fallback := "Registration failed. Please try again." in
  let st :=
    match reply with
    | Fulfilled msg =>
        let st := setMessage (or_else msg "Registration successful!") st in
        match stored with
        | Resolved => setItem "systemId" id st
        | Rejects => setError fallback st
        end
    | Failed err => setError (failure_value err fallback) st
    end in
  setLoading (with_register false) st.

(** [handleLogin] up to its [axios.post] (lines 165-174). *)
Definition handleLogin (st : State) : State * option Request :=
  let st := clearMessages st in
  if negb (truthy (trim (systemId st))) || negb (truthy (trim (password st)))
  then (setError "Please provide both system ID and password." st, None)
  else (setLoading (with_login true) st,
        Some (PostLogin (systemId st) (password st))).

(** [handleLogin] from the reply on (lines 179-193); [reply] carries
    [response.data.token]. *)
Definition handleLogin_resume (id : string) (reply : Reply string)
  (stored_token stored_id : StorageResult) (st : State) : State :=
  let fallback := "Login failed. Please check your credentials." in
  let st :=
    match reply with
    | Fulfilled token =>
        let st := setJwtToken token st in
        match stored_token with
        | Resolved =>
            let st := setItem "jwtToken" token st in
            match stored_id with
            | Resolved => setMessage "Login successful!" (setItem "systemId" id st)
            | Rejects => setError fallback st
            end
        | Rejects => setError fallback st
        end
    | Failed err => setError (failure_value err fallback) st
    end in
  setLoading (with_login false) st.

(** [fetchAttendance] up to its [axios.post] (lines 227-250). *)
Definition fetchAttendance (st : State) : State * option Request :=
  let st := clearMessages st in
  if negb (truthy (jwtToken st))
  then (setError "Please login (or authenticate with Gmail) first." st, None)
  else (replaceAttendance None (setLoading (with_fetch true) st),
        Some (PostAttendance (jwtToken st))).

(** [fetchAttendance] from the reply on (lines 252-274); [reply] carries
    [response.data.attendance]. *)
Definition fetchAttendance_resume (reply : Reply (option (list record)))
  (removed : StorageResult) (st : State) : State :=
  let st :=
    match reply with
    | Fulfilled data =>
        let st := replaceAttendance (Some (default [] data)) st in
        match data with
        | Some (_ :: _) => setMessage "Attendance fetched successfully!" st
        | _ => setMessage "No attendance records found." st
        end
    | Failed err =>
        if bool_decide (response_status err = Some 401)
        then
          let st := setJwtToken "" (setError "Your session has expired. Please login again." st) in
          match removed with
          | Resolved => removeItem "jwtToken" st
          | Rejects => st
          end
        else
          setError (failure_value err
                      "Error fetching attendance. Please try again.") st
    end in
  setLoading (with_fetch false) st.

(** [handleLogout] (lines 277-287). *)
Definition handleLogout (removed : StorageResult) (st : State) : State :=
  match removed with
  | Resolved =>
      setMessage "Logged out successfully."
        (replaceAttendance None (setJwtToken "" (removeItem "jwtToken" st)))
  | Rejects => setError "Error logging out." st
  end.

(** An incoming URL, reduced to what the handlers read from it:
    [new URL(url).searchParams.get("token")]. *)
Record Url : Type := mkUrl { token_param : option string }.

(** [handleDeepLink] (lines 70-81); [url] is [event?.url]. *)
Definition handleDeepLink (url : option Url) (stored : StorageResult)
  (st : State) : State :=
  match url with
  | Some u =>
      match token_param u with
      | Some token =>
          if truthy token then
            match stored with
            | Resolved =>
                setMessage "Gmail authentication complete!"
                  (setJwtToken token (setItem "jwtToken" token st))
            | Rejects => st
            end
          else st
      | None => st
      end
  | None => st
  end.

(** The callback of [Linking.getInitialURL()] (lines 87-97): the storage
    write is not awaited. *)
Definition initialURL (url : option Url) (stored : StorageResult)
  (st : State) : State :=
  match url with
  | Some u =>
      match token_param u with
      | Some token =>
          if truthy token then
            let st := match stored with
                      | Resolved => setItem "jwtToken" token st
                      | Rejects => st
                      end in
            setMessage "Gmail authentication complete!" (setJwtToken token st)
          else st
      | None => st
      end
  | None => st
  end.

(** *** Table rendering (lines 290-344) *)

Inductive CellText : Type :=
| Label (text : string)
| Value (v : option value).

(** What ends up as the [width] of a cell: a number, or a member that the
    widths object inherits from [Object.prototype] (not a number). *)
Inductive Width : Type :=
| Pixels (w : Z)
| NotANumber (member : string).

Record Cell : Type := mkCell {
  cell_width : Width;
  cell_text : CellText
}.

(** [columnWidths[header] || 120]: the own width when there is one and it
    is not 0; else the inherited member, which is truthy; else 120. *)
Definition widthFor (st : State) (header : string) : Width :=
  match columnWidths st !! header with
  | Some w => if (w =? 0)%Z then Pixels 120 else Pixels w
  | None => if inherits header then NotANumber header else Pixels 120
  end.

Definition renderCell (st : State) (v : option value) (header : string)
  (isHeader : bool) : Cell :=
  mkCell (widthFor st header)
         (if isHeader then Label (headerLabel header) else Value v).

(** [createTableRows]: [None] is the [null] returned for no data; otherwise
    the header row followed by one row per record. *)
Definition createTableRows (st : State) : option (list (list Cell)) :=
  match attendance st with
  | None | Some [] => None
  | Some items =>
      Some (map (fun header => renderCell st (Some (VString header)) header true)
                (tableHeaders st)
            :: map (fun item =>
                      map (fun header => renderCell st (get item header) header false)
                          (tableHeaders st))
                   items)
  end.

End App.

(** ** [encodeURIComponent] *)

Module Uri.

(** The characters [encodeURIComponent] leaves as they are: letters, digits
    and [- _ . ! ~ * ' ( )]. *)
Definition is_unreserved (c : ascii) : bool :=
  let n := nat_of_ascii c in
  ((65 <=? n)%nat && (n <=? 90)%nat)
  || ((97 <=? n)%nat && (n <=? 122)%nat)
  || ((48 <=? n)%nat && (n <=? 57)%nat)
  || (n =? 45)%nat || (n =? 95)%nat || (n =? 46)%nat || (n =? 33)%nat
  || (n =? 126)%nat || (n =? 42)%nat || (n =? 39)%nat || (n =? 40)%nat
  || (n =? 41)%nat.

(** One upper-case hexadecimal digit. *)
Definition hex_digit (d : nat) : ascii :=
  if (d <? 10)%nat then ascii_of_nat (48 + d) else ascii_of_nat (55 + d).

(** [%XX] for one byte. *)
Definition percent (byte : nat) : string :=
  String "%"%char
    (String (hex_digit (byte / 16)) (String (hex_digit (byte mod 16)) EmptyString)).

(** The escape of one code unit below 256: its UTF-8 bytes, one below 128
    and two from there on. *)
Definition escape (c : ascii) : string :=
  let n := nat_of_ascii c in
  if (n <? 128)%nat then percent n
  else percent (192 + n / 64) ++ percent (128 + n mod 64).

Fixpoint encodeURIComponent (s : string) : string :=
  match s with
  | EmptyString => EmptyString
  | String c rest =>
      if is_unreserved c
      then String c (encodeURIComponent rest)
      else escape c ++ encodeURIComponent rest
  end.

End Uri.

(** ** Start-up, text input and the Gmail hand-off *)

Module Auth.
Import Js Layout App Uri.

Definition API_URL : string := "https://sharda-attendance-backend.onrender.com".

(** [onChangeText] of the two input fields (lines 384 and 404). *)
Definition setSystemId (id : string) (st : State) : State :=
  mkState id (password st) (jwtToken st) (attendance st) (loading st)
          (message st) (error st) (tableHeaders st) (columnWidths st) (storage st).

Definition setPassword (pw : string) (st : State) : State :=
  mkState (systemId st) pw (jwtToken st) (attendance st) (loading st)
          (message st) (error st) (tableHeaders st) (columnWidths st) (storage st).

Definition with_gmailAuth (b : bool) (prev : Loading) : Loading :=
  mkLoading (register prev) (login prev) (fetch prev) b.

(** [AsyncStorage.getItem]: [None] is the [null] of a missing key. *)
Definition getItem (key : string) (st : State) : option string :=
  storage st !! key.

(** The two updates of [loadStoredToken] (lines 53-59), given what the
    reads returned. *)
Definition useStored (storedToken storedSystemId : option string) (st : State)
  : State :=
  let st :=
    match storedToken with
    | Some t => if truthy t
                then setMessage "Welcome back!" (setJwtToken t st)
                else st
    | None => st
    end in
  match storedSystemId with
  | Some id => if truthy id then setSystemId id st else st
  | None => st
  end.

(** [loadStoredToken] (lines 49-63): both reads are awaited before either
    value is used, so a rejected read skips both updates. *)
Definition loadStoredToken (read_token read_id : StorageResult) (st : State)
  : State :=
  match read_token, read_id with
  | Resolved, Resolved => useStored (getItem "jwtToken" st) (getItem "systemId" st) st
  | _, _ => st
  end.

(** Which of the two mount effects updates the state first. *)
Inductive MountOrder : Type := LoaderFirst | LinkFirst.

(** The component once mounted over a given storage, when its two mount
    effects have settled: the load of the stored token and identity (lines
    48-66) and the check of the URL the app was launched with (lines
    87-97).  The reads are issued before the launch URL is known, so they
    see the storage as it was; the two effects may update the state in
    either order. *)
Definition mount (stored : gmap string string) (read_token read_id : StorageResult)
  (launch : option Url) (link_stored : StorageResult) (order : MountOrder) : State :=
  let load st :=
    match read_token, read_id with
    | Resolved, Resolved => useStored (stored !! "jwtToken") (stored !! "systemId") st
    | _, _ => st
    end in
  match order with
  | LoaderFirst => initialURL launch link_stored (load (initialState stored))
  | LinkFirst => load (initialURL launch link_stored (initialState stored))
  end.

(** [handleGmailAuth] up to its first [await] (lines 196-205); the result
    carries the [systemId] the call goes on with. *)
Definition handleGmailAuth (st : State) : State * option string :=
  let st := clearMessages st in
  if negb (truthy (trim (systemId st)))
  then (setError "Please enter your system ID before Gmail authentication." st, None)
  else (setLoading (with_gmailAuth true) st, Some (systemId st)).

(** How [Linking.openURL] ended. *)
Inductive OpenResult : Type := Opened | OpenFails.

(** [redirectUrl] (lines 209-211). *)
Definition redirectUrl (id : string) : string :=
  API_URL ++ "/auth/gmail?systemId=" ++ encodeURIComponent id.

(** [handleGmailAuth] from the storage write on (lines 205-224); beside the
    state, the URL handed to [Linking.openURL], if the call was reached. *)
Definition handleGmailAuth_resume (id : string) (stored : StorageResult)
  (opened : OpenResult) (st : State) : State * option string :=
  let failure := "Failed to initiate Gmail authentication. Please try again." in
  match stored with
  | Rejects => (setLoading (with_gmailAuth false) (setError failure st), None)
  | Resolved =>
      let st := setItem "systemId" id st in
      let st :=
        match opened with
        | Opened =>
            setMessage "Gmail authentication initiated. Please complete the process in your browser." st
        | OpenFails => setError failure st
        end in
      (setLoading (with_gmailAuth false) st, Some (redirectUrl id))
  end.

End Auth.

(** ** What the view shows (lines 346-590) *)

Module View.
Import Js Layout App Auth.

(** The sign-in form is rendered when [jwtToken] is falsy, the signed-in
    block otherwise (line 370). *)
Definition showsForm (st : State) : bool := negb (truthy (jwtToken st)).

(** A button reacts when it is rendered and not [disabled]. *)
Definition pressLogin (st : State) : State * option Request :=
  if showsForm st && negb (login (loading st)) then handleLogin st else (st, None).

Definition pressRegister (st : State) : State * option Request :=
  if showsForm st && negb (register (loading st)) then handleRegister st else (st, None).

Definition pressGmailAuth (st : State) : State * option string :=
  if showsForm st && negb (gmailAuth (loading st)) then handleGmailAuth st else (st, None).

Definition pressFetch (st : State) : State * option Request :=
  if negb (showsForm st) && negb (fetch (loading st)) then fetchAttendance st else (st, None).

Definition pressLogout (removed : StorageResult) (st : State) : State :=
  if negb (showsForm st) then handleLogout removed st else st.

(** The attendance container (lines 560-592): rendered whenever
    [attendance] is an array, with the record count and either the
    "no records" notice or what [createTableRows] returns. *)
Inductive Body : Type :=
| NoRecords
| Table (rows : option (list (list Cell))).

Definition attendanceContainer (st : State) : option (nat * Body) :=
  match attendance st with
  | None => None
  | Some items =>
      Some (List.length items,
            match items with
            | [] => NoRecords
            | _ :: _ => Table (createTableRows st)
            end)
  end.

End View.

Import Js Layout App Uri Auth View.

(** * Properties *)

(** ** Sample data *)

Definition ann : record := [("name", VString "Ann"); ("pct", VString "92")].
Definition alexandria : record := [("name", VString "Alexandria"); ("pct", VString "5")].
Definition sample_batch : list record := [ann; alexandria].

(** A signed-in session holding [sample_batch], as left by a fetch. *)
Definition sample_session : State :=
  fetchAttendance_resume (Fulfilled (Some sample_batch)) Resolved
    (fst (fetchAttendance (setJwtToken "tok" (initialState {["jwtToken" := "tok"]})))).

(** A fetch failed with a server error on a signed-in session: the error
    message is showing. *)
Definition failed_fetch_session : State :=
  fetchAttendance_resume (Failed (mkFailure (Some 500) NoData)) Resolved
    (fst (fetchAttendance sample_session)).

(** Every cell other than [message] and [error] has the same value in both
    states, and so has the storage. *)
Definition only_messages_differ (st st' : State) : Prop :=
  systemId st' = systemId st
  /\ password st' = password st
  /\ jwtToken st' = jwtToken st
  /\ attendance st' = attendance st
  /\ loading st' = loading st
  /\ tableHeaders st' = tableHeaders st
  /\ columnWidths st' = columnWidths st
  /\ storage st' = storage st.

(** ** Runs of the component *)

(** What can happen to the mounted component: typing, a handler started,
    a continuation resumed with its reply, a link delivered. *)
Inductive Event : Type :=
| TypeSystemId (text : string)
| TypePassword (text : string)
| StartupLoaded (read_token read_id : StorageResult)
| RegisterStarts
| RegisterSettles (id : string) (reply : Reply (option string)) (stored : StorageResult)
| LoginStarts
| LoginSettles (id : string) (reply : Reply string) (stored_token stored_id : StorageResult)
| GmailAuthStarts
| GmailAuthSettles (id : string) (stored : StorageResult) (opened : OpenResult)
| FetchStarts
| FetchSettles (reply : Reply (option (list record))) (removed : StorageResult)
| LogoutRuns (removed : StorageResult)
| LinkArrives (url : option Url) (stored : StorageResult)
| InitialLinkFound (url : option Url) (stored : StorageResult).

Definition step (st : State) (e : Event) : State :=
  match e with
  | TypeSystemId text => setSystemId text st
  | TypePassword text => setPassword text st
  | StartupLoaded read_token read_id => loadStoredToken read_token read_id st
  | RegisterStarts => fst (handleRegister st)
  | RegisterSettles id reply stored => handleRegister_resume id reply stored st
  | LoginStarts => fst (handleLogin st)
  | LoginSettles id reply stored_token stored_id =>
      handleLogin_resume id reply stored_token stored_id st
  | GmailAuthStarts => fst (handleGmailAuth st)
  | GmailAuthSettles id stored opened => fst (handleGmailAuth_resume id stored opened st)
  | FetchStarts => fst (fetchAttendance st)
  | FetchSettles reply removed => fetchAttendance_resume reply removed st
  | LogoutRuns removed => handleLogout removed st
  | LinkArrives url stored => handleDeepLink url stored st
  | InitialLinkFound url stored => initialURL url stored st
  end.

(** Any sequence of events, in any order and with any replies, from the
    freshly mounted component. *)
Definition run (stored : gmap string string) (events : list Event) : State :=
  fold_left step events (initialState stored).

(** The layout cells belong to the records on display: with a non-empty
    batch the headers are the keys of its first record and the widths are
    the ones computed from it. *)
Definition layout_in_sync (st : State) : Prop :=
  match attendance st with
  | Some (first :: rest) =>
      tableHeaders st = Object_keys first
      /\ columnWidths st = widthsOf (first :: rest) (Object_keys first)
  | _ => True
  end.

(** Every width has a header and lies in [100, 200]; every header has a
    width, except a header named [__proto__], which has none. *)
Definition layout_well_formed (st : State) : Prop :=
  forall h : string,
    match columnWidths st !! h with
    | Some w => In h (tableHeaders st) /\ h <> "__proto__" /\ 100 <= w <= 200
    | None => ~ In h (tableHeaders st) \/ h = "__proto__"
    end.


(** Reading the field off the row gives something other than
    [undefined]. *)
Definition has_field (header : string) (row : record) : bool :=
  match get row header with
  | Some _ => true
  | None => false
  end.

(** Every character of the string satisfies the test. *)
Fixpoint all_chars (p : ascii -> bool) (s : string) : bool :=
  match s with
  | EmptyString => true
  | String c rest => p c && all_chars p rest
  end.

(** The value of a hexadecimal digit as [hex_digit] writes them. *)
Definition hex_value (c : ascii) : option nat :=
  let n := nat_of_ascii c in
  if ((48 <=? n) && (n <=? 57))%nat then Some (n - 48)%nat
  else if ((65 <=? n) && (n <=? 70))%nat then Some (n - 55)%nat
  else None.

(** Reads one [%XX] byte off the front of a string. *)
Definition read_byte (s : string) : option (nat * string) :=
  match s with
  | String p (String a (String b rest)) =>
      if Ascii.eqb p "%"%char then
        match hex_value a, hex_value b with
        | Some x, Some y => Some ((16 * x + y)%nat, rest)
        | _, _ => None
        end
      else None
  | _ => None
  end.

(** Reads back one escaped code unit, the inverse of [escape]; it serves to
    show that escapes can be told apart. *)
Definition unescape (s : string) : option (ascii * string) :=
  match read_byte s with
  | Some (n, rest) =>
      if (n <? 128)%nat then Some (ascii_of_nat n, rest)
      else
        match read_byte rest with
        | Some (m, rest') => Some (ascii_of_nat ((n - 192) * 64 + (m - 128)), rest')
        | None => None
        end
  | None => None
  end.

(** The link carries a non-empty token parameter. *)
Definition carries_token (url : option Url) : bool :=
  match url with
  | Some u =>
      match token_param u with
      | Some t => truthy t
      | None => false
      end
  | None => false
  end.

(** Same cells except [jwtToken] and [message]; same stored identity. *)
Definition beside_token_untouched (st st' : State) : Prop :=
  systemId st' = systemId st
  /\ password st' = password st
  /\ attendance st' = attendance st
  /\ tableHeaders st' = tableHeaders st
  /\ columnWidths st' = columnWidths st
  /\ loading st' = loading st
  /\ error st' = error st
  /\ storage st' !! "systemId" = storage st !! "systemId".

(** Same cells except [message], [error] and [loading]; same storage. *)
Definition session_untouched (st st' : State) : Prop :=
  systemId st' = systemId st
  /\ password st' = password st
  /\ jwtToken st' = jwtToken st
  /\ attendance st' = attendance st
  /\ tableHeaders st' = tableHeaders st
  /\ columnWidths st' = columnWidths st
  /\ storage st' = storage st.

(** ** The running maximum *)

Section RunningMaximum.
Variable f : record -> Z.

Lemma running_max_lower (rows : list record) (init : Z) :
  init <= fold_left (fun acc row => Z.max acc (f row)) rows init.
Proof.
  revert init. induction rows as [|row rows IH]; intros init; simpl.
  - lia.
  - specialize (IH (Z.max init (f row))). lia.
Qed.

Lemma running_max_bounds (rows : list record) (init : Z) (row : record) :
  In row rows -> f row <= fold_left (fun acc row => Z.max acc (f row)) rows init.
Proof.
  revert init. induction rows as [|r rows IH]; intros init Hin; simpl.
  - destruct Hin.
  - destruct Hin as [-> | Hin].
    + pose proof (running_max_lower rows (Z.max init (f row))) as Hlow. lia.
    + now apply IH.
Qed.

Lemma running_max_attained (rows : list record) (init : Z) :
  fold_left (fun acc row => Z.max acc (f row)) rows init = init
  \/ exists row, In row rows
                 /\ fold_left (fun acc row => Z.max acc (f row)) rows init = f row.
Proof.
  revert init. induction rows as [|r rows IH]; intros init; simpl.
  - now left.
  - destruct (IH (Z.max init (f r))) as [Heq | (row & Hin & Heq)].
    + rewrite Heq.
      destruct (Z.max_spec init (f r)) as [[_ ->] | [_ ->]].
      * right. exists r. auto.
      * now left.
    + right. exists row. auto.
Qed.

Lemma running_max_fold_right (rows : list record) (init : Z) :
  fold_left (fun acc row => Z.max acc (f row)) rows init
  = fold_right Z.max init (map f rows).
Proof.
  revert init. induction rows as [|r rows IH]; intros init; simpl.
  - reflexivity.
  - rewrite IH. clear IH.
    induction rows as [|r' rows IH]; simpl; lia.
Qed.

Lemma running_max_perm (rows rows' : list record) (init : Z) :
  Permutation rows rows' ->
  fold_left (fun acc row => Z.max acc (f row)) rows init
  = fold_left (fun acc row => Z.max acc (f row)) rows' init.
Proof.
  intros Hperm. revert init.
  induction Hperm as [|r l l' _ IH|r r' l|l l' l'' _ IH1 _ IH2]; intros init; simpl.
  - reflexivity.
  - apply IH.
  - f_equal. lia.
  - now rewrite IH1.
Qed.
End RunningMaximum.

Lemma maxWidth_perm (rows rows' : list record) (header : string) :
  Permutation rows rows' -> maxWidth rows header = maxWidth rows' header.
Proof. intros Hperm. unfold maxWidth. now apply running_max_perm. Qed.

(** ** The widths object *)

Lemma fill_widths_lookup (w : string -> Z) (headers : list string)
  (acc : gmap string Z) (h : string) :
  fold_left (fun widths header => assign header (w header) widths) headers acc !! h
  = if decide (h ∈ headers /\ h <> "__proto__") then Some (w h) else acc !! h.
Proof.
  revert acc. induction headers as [|k headers IH]; intros acc; cbn [fold_left].
  - rewrite decide_False; [reflexivity |]. intros [Hin _]. now apply not_elem_of_nil in Hin.
  - rewrite IH. destruct (decide (h ∈ headers /\ h <> "__proto__")) as [[Hin Hne] | Hout].
    + rewrite decide_True; [reflexivity |]. split; [apply elem_of_cons; now right | exact Hne].
    + unfold assign. destruct (String.eqb k "__proto__") eqn:Hk.
      * apply String.eqb_eq in Hk. subst k.
        rewrite decide_False; [reflexivity |].
        intros [Hin Hne]. apply elem_of_cons in Hin as [Heq | Hin]; [now apply Hne |].
        apply Hout. now split.
      * apply String.eqb_neq in Hk.
        destruct (decide (k = h)) as [-> | Hkh].
        -- rewrite lookup_insert_eq. rewrite decide_True; [reflexivity |].
           split; [apply elem_of_cons; now left | exact Hk].
        -- rewrite lookup_insert_ne by assumption.
           rewrite decide_False; [reflexivity |].
           intros [Hin Hne]. apply elem_of_cons in Hin as [Heq | Hin];
             [now apply Hkh | apply Hout; now split].
Qed.

Lemma widthsOf_lookup (rows : list record) (headers : list string) (h : string) :
  widthsOf rows headers !! h
  = if decide (h ∈ headers /\ h <> "__proto__")
    then Some (columnWidth rows h) else None.
Proof. unfold widthsOf. rewrite fill_widths_lookup. now rewrite lookup_empty. Qed.

Lemma columnWidths_replaceAttendance (st : State) (first : record) (rest : list record) :
  columnWidths (replaceAttendance (Some (first :: rest)) st)
  = widthsOf (first :: rest) (Object_keys first).
Proof. reflexivity. Qed.

(** ** Column layout *)

(** C2, as stated, fails: the effect measures the field name itself, not the
    label shown for it.  For "rollNo" the starting width is 6*10+24 = 84
    while the label "Roll No" would give 94, and the column of the one-row
    batch [{studentName: "Ann"}] gets 11*10+24 = 134, not the 144 of the label
    "Student Name". *)
Lemma header_candidate_counterexample :
  headerLabel "rollNo" = "Roll No"
  /\ headerWidth "rollNo" = 84
  /\ headerWidth "rollNo" <> Js.length (headerLabel "rollNo") * 10 + 24
  /\ columnWidths (replaceAttendance (Some [[("studentName", VString "Ann")]])
                     (initialState ∅)) !! "studentName" = Some 134
  /\ Js.length (headerLabel "studentName") * 10 + 24 = 144.
Proof. repeat split. vm_compute. discriminate. Qed.

(** C2, amended: the header contributes the length of the field name as
    written, times 10, plus 24, to the running maximum of its column, over
    any rows; for "rollNo" that is 6*10+24 = 84. *)
Theorem header_candidate_is_raw_length :
  (forall (rows : list record) (header : string),
      maxWidth rows header
      = fold_right Z.max (Z.of_nat (String.length header) * 10 + 24)
                   (map (cellWidth header) rows))
  /\ maxWidth [] "rollNo" = 84.
Proof.
  split; [| reflexivity].
  intros rows header. unfold maxWidth. now rewrite running_max_fold_right.
Qed.

(** C8: on a non-empty batch the widths installed by the effect do not
    depend on the state they replace, and reordering the rows without
    changing the key set of the first row leaves them identical. *)
Theorem column_widths_row_order_independent
  (st st' : State) (rows rows' : list record) :
  rows <> [] ->
  Permutation rows rows' ->
  (forall k, In k (Object_keys (hd [] rows)) <-> In k (Object_keys (hd [] rows'))) ->
  columnWidths (replaceAttendance (Some rows) st)
  = columnWidths (replaceAttendance (Some rows') st').
Proof.
  intros Hne Hperm Hkeys.
  destruct rows as [|first rest]; [congruence |].
  destruct rows' as [|first' rest'].
  { apply Permutation_sym, Permutation_nil in Hperm. discriminate. }
  rewrite !columnWidths_replaceAttendance. simpl in Hkeys.
  apply map_eq. intros h. rewrite !widthsOf_lookup.
  unfold columnWidth. rewrite (maxWidth_perm _ _ h Hperm).
  destruct (decide (h ∈ Object_keys first /\ h <> "__proto__")) as [[Hin Hh] | Hout];
    destruct (decide (h ∈ Object_keys first' /\ h <> "__proto__")) as [[Hin' Hh'] | Hout'];
    try reflexivity.
  - exfalso. apply Hout'.
    split; [apply list_elem_of_In, Hkeys, list_elem_of_In, Hin | exact Hh].
  - exfalso. apply Hout.
    split; [apply list_elem_of_In, Hkeys, list_elem_of_In, Hin' | exact Hh'].
Qed.

Lemma column_widths_row_order_independent_witness :
  [ann; alexandria] <> []
  /\ Permutation [ann; alexandria] [alexandria; ann]
  /\ columnWidths (replaceAttendance (Some [ann; alexandria]) (initialState ∅))
     = columnWidths (replaceAttendance (Some [alexandria; ann]) sample_session).
Proof.
  split; [discriminate |]. split; [apply perm_swap |].
  apply column_widths_row_order_independent.
  - discriminate.
  - apply perm_swap.
  - intros k. simpl. reflexivity.
Defined.



(** C3, as stated, fails: after a fetch that returned Ann and Alexandria, a
    second fetch that returns no records leaves both headers and both widths
    in place. *)
Lemma empty_batch_counterexample :
  let st := fetchAttendance_resume (Fulfilled (Some [])) Resolved
              (fst (fetchAttendance sample_session)) in
  attendance st = Some []
  /\ tableHeaders st = ["name"; "pct"]
  /\ columnWidths st !! "name" = Some 104
  /\ columnWidths st <> ∅.
Proof.
  repeat split. intros Hempty.
  apply (f_equal (fun m : gmap string Z => m !! "name")) in Hempty.
  vm_compute in Hempty. discriminate.
Qed.

(** C3, amended: replacing the batch by an empty list leaves the headers and
    the widths as they were (empty in the initial state); the table renderer
    returns no rows for it. *)
Theorem empty_batch_keeps_layout :
  (forall st : State,
      let st' := replaceAttendance (Some []) st in
      attendance st' = Some []
      /\ tableHeaders st' = tableHeaders st
      /\ columnWidths st' = columnWidths st
      /\ createTableRows st' = None)
  /\ (forall (st : State) (stored : StorageResult),
         let st' := fetchAttendance_resume (Fulfilled (Some [])) stored st in
         attendance st' = Some []
         /\ tableHeaders st' = tableHeaders st
         /\ columnWidths st' = columnWidths st
         /\ createTableRows st' = None)
  /\ (forall stored : gmap string string,
         let st' := replaceAttendance (Some []) (initialState stored) in
         tableHeaders st' = [] /\ columnWidths st' = ∅).
Proof. repeat split. Qed.

(** ** Validation and guards *)

Lemma trimStart_white_space_only (s : string) :
  white_space_only s = true -> trimStart s = "".
Proof.
  induction s as [|c rest IH]; simpl; intros Hws.
  - reflexivity.
  - apply andb_true_iff in Hws as [Hc Hrest]. rewrite Hc. now apply IH.
Qed.

Lemma trim_white_space_only (s : string) :
  white_space_only s = true -> trim s = "".
Proof.
  intros Hws. unfold trim. now rewrite trimStart_white_space_only.
Qed.

Lemma validation_rejects (id pw : string) :
  white_space_only id = true \/ white_space_only pw = true ->
  negb (truthy (trim id)) || negb (truthy (trim pw)) = true.
Proof.
  intros [Hws | Hws]; rewrite (trim_white_space_only _ Hws); simpl.
  - reflexivity.
  - apply orb_true_r.
Qed.

(** C7: when the identity or the secret is empty or made of white space only,
    [handleRegister] and [handleLogin] issue no request and leave every cell
    but the two messages alone (so no loading flag is raised): the error is
    the validation message and the success message is blank. *)
Theorem blank_credentials_rejected (st : State) :
  white_space_only (systemId st) = true \/ white_space_only (password st) = true ->
  (snd (handleRegister st) = None
   /\ error (fst (handleRegister st)) = "Please provide both system ID and password."
   /\ message (fst (handleRegister st)) = ""
   /\ register (loading (fst (handleRegister st))) = register (loading st)
   /\ only_messages_differ st (fst (handleRegister st)))
  /\ (snd (handleLogin st) = None
      /\ error (fst (handleLogin st)) = "Please provide both system ID and password."
      /\ message (fst (handleLogin st)) = ""
      /\ login (loading (fst (handleLogin st))) = login (loading st)
      /\ only_messages_differ st (fst (handleLogin st))).
Proof.
  intros Hblank. apply validation_rejects in Hblank.
  unfold handleRegister, handleLogin, only_messages_differ.
  cbn [systemId password clearMessages setMessage setError].
  rewrite Hblank. cbn. repeat split.
Qed.

Lemma blank_credentials_rejected_witness :
  let st := mkState "21BCS001" "   " "" None (mkLoading false false false false)
                    "Welcome back!" "" [] ∅ ∅ in
  (white_space_only (systemId st) = true \/ white_space_only (password st) = true)
  /\ snd (handleRegister st) = None
  /\ snd (handleLogin st) = None
  /\ message (fst (handleLogin st)) = "".
Proof.
  intros st.
  assert (Hblank : white_space_only (systemId st) = true
                   \/ white_space_only (password st) = true)
    by (right; reflexivity).
  destruct (blank_credentials_rejected st Hblank)
    as [(Hreg & _) (Hlog & _ & Hmsg & _)].
  repeat split; assumption.
Defined.

(** C10: with no token, [fetchAttendance] issues no request and changes
    nothing but the messages: the fetch flag, the token, the records and the
    storage are as before, the error asks to log in first. *)
Theorem fetch_without_token (st : State) :
  jwtToken st = "" ->
  snd (fetchAttendance st) = None
  /\ error (fst (fetchAttendance st)) = "Please login (or authenticate with Gmail) first."
  /\ message (fst (fetchAttendance st)) = ""
  /\ fetch (loading (fst (fetchAttendance st))) = fetch (loading st)
  /\ only_messages_differ st (fst (fetchAttendance st)).
Proof.
  intros Hnone. unfold fetchAttendance, only_messages_differ.
  cbn [jwtToken clearMessages setMessage setError]. rewrite Hnone.
  cbn. repeat split; assumption.
Qed.

Lemma fetch_without_token_witness :
  jwtToken (initialState ∅) = ""
  /\ snd (fetchAttendance (initialState ∅)) = None
  /\ fetch (loading (fst (fetchAttendance (initialState ∅)))) = false.
Proof.
  destruct (fetch_without_token (initialState ∅) eq_refl)
    as (Hreq & _ & _ & Hflag & _).
  repeat split; assumption.
Defined.

(** ** Session handlers *)

(** C4, as stated, fails for the stored token: when the removal from
    storage is rejected, a 401 blanks the token cell but leaves the stored
    token in place, and the component mounted again over that storage is
    signed in. *)
Lemma unauthorized_fetch_counterexample :
  let st' := fetchAttendance_resume (Failed (mkFailure (Some 401) NoData)) Rejects
               (fst (fetchAttendance sample_session)) in
  snd (fetchAttendance sample_session) = Some (PostAttendance "tok")
  /\ jwtToken st' = ""
  /\ status st' = LoggedOut
  /\ storage st' !! "jwtToken" = Some "tok"
  /\ storage st' !! "jwtToken" <> None
  /\ status (mount (storage st') Resolved Resolved None Resolved LoaderFirst) = Active.
Proof. repeat split. discriminate. Qed.

(** C4, amended: a fetch started with a token and answered 401 ends signed
    out: the token cell is blank, the records are absent (whatever was held
    before), the expiry error is shown and the fetch flag is down, however
    the storage call ends; the stored token is gone when the removal
    resolves, and storage is as it was when the removal is rejected. *)
Theorem unauthorized_fetch_signs_out (st : State) (data : ResponseData) :
  truthy (jwtToken st) = true ->
  snd (fetchAttendance st) = Some (PostAttendance (jwtToken st))
  /\ (forall removed : StorageResult,
         let st' := fetchAttendance_resume (Failed (mkFailure (Some 401) data)) removed
                      (fst (fetchAttendance st)) in
         status st' = LoggedOut
         /\ jwtToken st' = ""
         /\ attendance st' = None
         /\ error st' = "Your session has expired. Please login again."
         /\ fetch (loading st') = false)
  /\ storage (fetchAttendance_resume (Failed (mkFailure (Some 401) data)) Resolved
                (fst (fetchAttendance st))) !! "jwtToken" = None
  /\ storage (fetchAttendance_resume (Failed (mkFailure (Some 401) data)) Rejects
                (fst (fetchAttendance st))) = storage st.
Proof.
  intros Htoken. unfold fetchAttendance.
  cbn [jwtToken clearMessages setMessage setError]. rewrite Htoken.
  cbn [negb fst snd]. split; [reflexivity |]. split; [| split].
  - intros [|]; repeat split.
  - cbn. apply lookup_delete_eq.
  - reflexivity.
Qed.

Lemma unauthorized_fetch_signs_out_witness :
  truthy (jwtToken sample_session) = true
  /\ attendance sample_session = Some sample_batch
  /\ attendance (fetchAttendance_resume (Failed (mkFailure (Some 401) NoData)) Resolved
                   (fst (fetchAttendance sample_session))) = None.
Proof.
  split; [reflexivity |]. split; [reflexivity |].
  destruct (unauthorized_fetch_signs_out sample_session NoData eq_refl)
    as (_ & Hst & _).
  destruct (Hst Resolved) as (_ & _ & Hatt & _). exact Hatt.
Defined.

(** C5, as stated, fails: logout does not blank the messages.  After a failed
    fetch the error is still showing once logged out, and the success
    message is the logout confirmation. *)
Lemma logout_messages_counterexample :
  let st' := handleLogout Resolved failed_fetch_session in
  status st' = LoggedOut
  /\ message st' = "Logged out successfully."
  /\ error st' = "Error fetching attendance. Please try again."
  /\ ~ (message st' = "" /\ error st' = "").
Proof.
  repeat split. intros [Hmsg _]. discriminate Hmsg.
Qed.

(** C5, amended: from every state, a logout whose storage call resolves ends
    signed out with the token blank in memory and gone from storage, the
    records absent and the logout confirmation as message; the identity, in
    its cell and in storage, is kept.  When the storage call rejects, only
    the error message is set (the success message stays as it was). *)
Theorem logout_clears_session (st : State) :
  (let st' := handleLogout Resolved st in
   status st' = LoggedOut
   /\ jwtToken st' = ""
   /\ storage st' !! "jwtToken" = None
   /\ attendance st' = None
   /\ message st' = "Logged out successfully."
   /\ systemId st' = systemId st
   /\ storage st' !! "systemId" = storage st !! "systemId")
  /\ (let st' := handleLogout Rejects st in
      error st' = "Error logging out." /\ only_messages_differ st st'
      /\ message st' = message st).
Proof.
  split.
  - cbn. repeat split.
    + apply lookup_delete_eq.
    + now apply lookup_delete_ne.
  - cbn. unfold only_messages_differ. repeat split.
Qed.

(** C1, as stated, fails: the reply of a fetch that was overtaken by a logout
    is not discarded.  Starting signed in, press fetch, log out, then let the
    reply with Ann and Alexandria arrive: the status stays signed out but the
    records are installed, with their headers. *)
Lemma late_reply_counterexample :
  let st0 := setJwtToken "tok" (initialState {["jwtToken" := "tok"]}) in
  let st1 := fst (fetchAttendance st0) in
  let st2 := handleLogout Resolved st1 in
  let st3 := fetchAttendance_resume (Fulfilled (Some sample_batch)) Resolved st2 in
  snd (fetchAttendance st0) = Some (PostAttendance "tok")
  /\ (status st2 = LoggedOut /\ jwtToken st2 = "" /\ attendance st2 = None)
  /\ status st3 = LoggedOut
  /\ attendance st3 = Some sample_batch
  /\ attendance st3 <> None
  /\ tableHeaders st3 = ["name"; "pct"].
Proof. repeat split. discriminate. Qed.

(** C1, amended: when a logout completes between a fetch issued with a token
    and its successful reply, the reply leaves the token blank, the stored
    token gone and the status signed out, but it is applied all the same: the
    records become the list in the reply (the empty list when the reply has
    none), the fetch message is shown and the fetch flag is lowered. *)
Theorem late_reply_after_logout
  (st : State) (data : option (list record)) (stored : StorageResult) :
  truthy (jwtToken st) = true ->
  let st1 := fst (fetchAttendance st) in
  let st2 := handleLogout Resolved st1 in
  let st3 := fetchAttendance_resume (Fulfilled data) stored st2 in
  snd (fetchAttendance st) = Some (PostAttendance (jwtToken st))
  /\ (status st2 = LoggedOut /\ jwtToken st2 = ""
      /\ storage st2 !! "jwtToken" = None /\ attendance st2 = None)
  /\ status st3 = LoggedOut
  /\ jwtToken st3 = ""
  /\ storage st3 !! "jwtToken" = None
  /\ attendance st3 = Some (default [] data)
  /\ message st3 = match data with
                   | Some (_ :: _) => "Attendance fetched successfully!"
                   | _ => "No attendance records found."
                   end
  /\ fetch (loading st3) = false.
Proof.
  intros Htoken. unfold fetchAttendance.
  cbn [jwtToken clearMessages setMessage setError]. rewrite Htoken.
  cbn [negb fst snd]. split; [reflexivity |]. split.
  - cbn. repeat split. apply lookup_delete_eq.
  - destruct data as [[|first rest]|]; cbn; repeat split; apply lookup_delete_eq.
Qed.

Lemma late_reply_after_logout_witness :
  truthy (jwtToken sample_session) = true
  /\ attendance
       (fetchAttendance_resume (Fulfilled (Some [alexandria])) Resolved
          (handleLogout Resolved (fst (fetchAttendance sample_session))))
     = Some [alexandria].
Proof.
  split; [reflexivity |].
  destruct (late_reply_after_logout sample_session (Some [alexandria]) Resolved eq_refl)
    as (_ & _ & _ & _ & _ & Hatt & _).
  exact Hatt.
Defined.

(** C6, as stated, fails for the empty token and for a rejected storage
    write.  A link whose token parameter is empty is ignored: nothing is
    stored, no message is shown and the status stays signed out.  And when
    the write of a non-empty token is rejected, the listener, which awaits
    it, does not sign in either. *)
Lemma empty_token_link_counterexample :
  (let st' := handleDeepLink (Some (mkUrl (Some ""))) Resolved (initialState ∅) in
   st' = initialState ∅
   /\ status st' = LoggedOut
   /\ status st' <> Active
   /\ storage st' !! "jwtToken" = None
   /\ message st' = "")
  /\ (let st' := handleDeepLink (Some (mkUrl (Some "abc"))) Rejects (initialState ∅) in
      st' = initialState ∅
      /\ status st' <> Active
      /\ jwtToken st' <> "abc"
      /\ storage st' !! "jwtToken" <> Some "abc").
Proof. repeat split; discriminate. Qed.

(** C6, amended: for every state and every non-empty token, a link carrying
    it (delivered to the listener, or found as the initial URL) whose
    storage write resolves ends signed in with the token in its cell and in
    storage and the completion message shown; a second such link with
    another non-empty token leaves that second token in both places.  When
    the write is rejected, the listener leaves the state as it was and the
    initial-URL path signs in with the token in memory only. *)
Theorem deep_link_token_signs_in (st : State) (t t2 : string) :
  truthy t = true ->
  truthy t2 = true ->
  (let st' := handleDeepLink (Some (mkUrl (Some t))) Resolved st in
   status st' = Active
   /\ jwtToken st' = t
   /\ storage st' !! "jwtToken" = Some t
   /\ message st' = "Gmail authentication complete!")
  /\ (let st' := initialURL (Some (mkUrl (Some t))) Resolved st in
      status st' = Active
      /\ jwtToken st' = t
      /\ storage st' !! "jwtToken" = Some t
      /\ message st' = "Gmail authentication complete!")
  /\ (let st' := handleDeepLink (Some (mkUrl (Some t2))) Resolved
                   (handleDeepLink (Some (mkUrl (Some t))) Resolved st) in
      status st' = Active
      /\ jwtToken st' = t2
      /\ storage st' !! "jwtToken" = Some t2)
  /\ handleDeepLink (Some (mkUrl (Some t))) Rejects st = st
  /\ (let st' := initialURL (Some (mkUrl (Some t))) Rejects st in
      status st' = Active
      /\ jwtToken st' = t
      /\ storage st' = storage st
      /\ message st' = "Gmail authentication complete!").
Proof.
  intros Ht Ht2. unfold handleDeepLink, initialURL, status.
  cbn [token_param]. rewrite Ht, Ht2. cbn. rewrite Ht, Ht2.
  repeat split; apply lookup_insert_eq.
Qed.

Lemma deep_link_token_signs_in_witness :
  truthy "abc" = true
  /\ truthy "xyz" = true
  /\ jwtToken (handleDeepLink (Some (mkUrl (Some "xyz"))) Resolved
                 (handleDeepLink (Some (mkUrl (Some "abc"))) Resolved sample_session))
     = "xyz".
Proof.
  split; [reflexivity |]. split; [reflexivity |].
  destruct (deep_link_token_signs_in sample_session "abc" "xyz" eq_refl eq_refl)
    as (_ & _ & (_ & Htok & _) & _).
  exact Htok.
Defined.

(** * Further properties of the component *)

(** ** Column widths: thresholds and irrelevant rows *)

Lemma clamp_max_small (a x : Z) : a <= 100 -> clamp (Z.max a x) = clamp x.
Proof. unfold clamp. lia. Qed.

Lemma clamp_max_congr (a x y : Z) :
  clamp x = clamp y -> clamp (Z.max a x) = clamp (Z.max a y).
Proof. unfold clamp. lia. Qed.

Lemma columnWidth_fold_right (rows : list record) (header : string) :
  columnWidth rows header
  = clamp (fold_right Z.max (headerWidth header) (map (cellWidth header) rows)).
Proof.
  unfold columnWidth, maxWidth. now rewrite running_max_fold_right.
Qed.

Lemma columnWidth_filter (keep : record -> bool) (rows : list record) (header : string) :
  (forall row, In row rows -> keep row = false -> cellWidth header row <= 100) ->
  columnWidth (List.filter keep rows) header = columnWidth rows header.
Proof.
  intros Hsmall. rewrite !columnWidth_fold_right.
  induction rows as [|row rows IH]; [reflexivity |].
  cbn [List.filter map fold_right].
  assert (IH' : clamp (fold_right Z.max (headerWidth header)
                         (map (cellWidth header) (List.filter keep rows)))
                = clamp (fold_right Z.max (headerWidth header)
                           (map (cellWidth header) rows))).
  { apply IH. intros r Hr. apply Hsmall. now right. }
  destruct (keep row) eqn:Hkeep.
  - cbn [map fold_right]. now apply clamp_max_congr.
  - rewrite IH'. symmetry. apply clamp_max_small.
    apply Hsmall; [now left | assumption].
Qed.

(** A record in which the field reads as [undefined] (it has no such own
    property and [Object.prototype] has no member of that name) is measured
    as the text "undefined", 9 characters and so 96 wide, under the minimum
    width: dropping all such records from the batch leaves the width of
    that column unchanged. *)
Theorem rows_without_field_do_not_widen (rows : list record) (header : string) :
  columnWidth (List.filter (has_field header) rows) header = columnWidth rows header
  /\ (forall row, has_field header row = false ->
                  own row header = None
                  /\ inherits header = false
                  /\ String_ (get row header) = "undefined"
                  /\ cellWidth header row = 9 * 8 + 24).
Proof.
  assert (Hmissing : forall row, has_field header row = false ->
                                 own row header = None
                                 /\ inherits header = false
                                 /\ String_ (get row header) = "undefined"
                                 /\ cellWidth header row = 9 * 8 + 24).
  { intros row. unfold has_field, cellWidth, get.
    destruct (own row header); [discriminate |].
    destruct (inherits header); [discriminate |].
    intros _. repeat split. }
  split; [| exact Hmissing].
  apply columnWidth_filter. intros row _ Hno.
  destruct (Hmissing row Hno) as (_ & _ & _ & ->). lia.
Qed.

Lemma rows_without_field_do_not_widen_witness :
  has_field "pct" [("name", VString "Bob")] = false
  /\ cellWidth "pct" [("name", VString "Bob")] = 96
  /\ has_field "valueOf" [("name", VString "Bob")] = true.
Proof.
  split; [reflexivity |].
  split; [| reflexivity].
  destruct (proj2 (rows_without_field_do_not_widen [] "pct")
              [("name", VString "Bob")] eq_refl) as (_ & _ & _ & Hwidth).
  exact Hwidth.
Defined.

(** A column whose field name has at most 7 characters and whose printed
    values all have at most 9 gets exactly the minimum width 100. *)
Theorem short_column_gets_minimum (rows : list record) (header : string) :
  (String.length header <= 7)%nat ->
  (forall row, In row rows -> (String.length (String_ (get row header)) <= 9)%nat) ->
  columnWidth rows header = 100.
Proof.
  intros Hheader Hrows. unfold columnWidth, clamp, maxWidth.
  destruct (running_max_attained (cellWidth header) rows (headerWidth header))
    as [-> | (row & Hin & ->)].
  - unfold headerWidth, Js.length. lia.
  - specialize (Hrows row Hin). unfold cellWidth, Js.length. lia.
Qed.

Lemma short_column_gets_minimum_witness :
  (String.length "pct" <= 7)%nat
  /\ columnWidth sample_batch "pct" = 100.
Proof.
  split; [vm_compute; lia |].
  apply short_column_gets_minimum.
  - vm_compute. lia.
  - intros row [<- | [<- | []]]; vm_compute; lia.
Defined.

(** A field name of 18 characters or more, or a single printed value of 22
    or more, puts the column at the maximum width 200, whatever the other
    rows hold. *)
Theorem long_text_gets_maximum (rows : list record) (header : string) :
  (18 <= String.length header)%nat
  \/ (exists row, In row rows /\ (22 <= String.length (String_ (get row header)))%nat) ->
  columnWidth rows header = 200.
Proof.
  intros Hlong. unfold columnWidth, clamp, maxWidth.
  destruct Hlong as [Hheader | (row & Hin & Hrow)].
  - pose proof (running_max_lower (cellWidth header) rows (headerWidth header)) as Hlow.
    unfold headerWidth, Js.length in *. lia.
  - pose proof (running_max_bounds (cellWidth header) rows (headerWidth header) row Hin)
      as Hlow.
    unfold cellWidth, Js.length in *. lia.
Qed.

Lemma long_text_gets_maximum_witness :
  (22 <= String.length "Maximilian Alexander Bartholomew")%nat
  /\ columnWidth [ann; [("name", VString "Maximilian Alexander Bartholomew")]] "name"
     = 200.
Proof.
  split; [vm_compute; lia |].
  apply long_text_gets_maximum. right.
  exists [("name", VString "Maximilian Alexander Bartholomew")].
  split; [right; left; reflexivity | vm_compute; lia].
Defined.

(** Appending records to a batch never narrows a column. *)
Theorem more_rows_never_narrow (rows more : list record) (header : string) :
  columnWidth rows header <= columnWidth (rows ++ more) header.
Proof.
  unfold columnWidth, maxWidth. rewrite fold_left_app.
  pose proof (running_max_lower (cellWidth header) more
                (fold_left (fun maxWidth row => Z.max maxWidth (cellWidth header row))
                           rows (headerWidth header))) as Hlow.
  unfold clamp. lia.
Qed.

(** ** Header labels *)





(** ** The rendered table *)

(** With a non-empty batch, [createTableRows] returns a header row and one
    row per record; every row has one cell per header, the cells of a column
    have the same width in every row, and the header row carries the
    labels. *)
Theorem table_rows_aligned (st : State) (first : record) (rest : list record) :
  attendance st = Some (first :: rest) ->
  exists head body,
    createTableRows st = Some (head :: body)
    /\ List.length body = List.length (first :: rest)
    /\ map cell_text head = map (fun h => Label (headerLabel h)) (tableHeaders st)
    /\ (forall row, In row (head :: body) ->
                    map cell_width row = map (widthFor st) (tableHeaders st)).
Proof.
  intros Hatt. unfold createTableRows. rewrite Hatt.
  eexists. eexists. split; [reflexivity |].
  split; [now rewrite length_map |].
  split.
  - rewrite map_map. reflexivity.
  - intros row [<- | Hin].
    + rewrite map_map. reflexivity.
    + apply in_map_iff in Hin as (item & <- & _).
      rewrite map_map. reflexivity.
Qed.

Lemma table_rows_aligned_witness :
  attendance sample_session = Some (ann :: [alexandria])
  /\ exists head body,
      createTableRows sample_session = Some (head :: body)
      /\ List.length body = 2%nat
      /\ map cell_text head = [Label "Name"; Label "Pct"]
      /\ (forall row, In row (head :: body) -> map cell_width row = [Pixels 104; Pixels 100]).
Proof.
  split; [reflexivity |].
  destruct (table_rows_aligned sample_session ann [alexandria] eq_refl)
    as (head & body & Hrows & Hlen & Hlabels & Hwidths).
  exists head, body. repeat split; assumption.
Defined.

(** The attendance container is absent exactly when there are no records
    at all; for an empty list it shows the "no records" notice with count
    0; otherwise the table it shows is never missing and has one header row
    above as many rows as the count. *)
Theorem attendance_container_cases (st : State) :
  match attendanceContainer st with
  | None => attendance st = None
  | Some (n, NoRecords) => attendance st = Some [] /\ n = 0%nat
  | Some (n, Table None) => False
  | Some (n, Table (Some rows)) =>
      List.length rows = S n
      /\ (0 < n)%nat
      /\ exists items, attendance st = Some items /\ List.length items = n
  end.
Proof.
  unfold attendanceContainer, createTableRows.
  destruct (attendance st) as [[|first rest]|]; cbn [List.length].
  - split; reflexivity.
  - split; [now rewrite length_map |].
    split; [lia |]. exists (first :: rest). split; reflexivity.
  - reflexivity.
Qed.

(** ** What holds after every run *)

Lemma layout_replaceAttendance (a : option (list record)) (st : State) :
  layout_in_sync st /\ layout_well_formed st ->
  layout_in_sync (replaceAttendance a st)
  /\ layout_well_formed (replaceAttendance a st).
Proof.
  intros [Hsync Hwf].
  destruct a as [[|first rest]|].
  - split; [exact I | exact Hwf].
  - split; [split; reflexivity |].
    intros h. change (columnWidths (replaceAttendance (Some (first :: rest)) st))
      with (widthsOf (first :: rest) (Object_keys first)).
    change (tableHeaders (replaceAttendance (Some (first :: rest)) st))
      with (Object_keys first).
    rewrite widthsOf_lookup.
    destruct (decide (h ∈ Object_keys first /\ h <> "__proto__")) as [[Hin Hne] | Hout].
    + split; [now apply list_elem_of_In |]. split; [exact Hne |].
      unfold columnWidth, clamp. lia.
    + destruct (string_dec h "__proto__") as [Heq | Hne]; [now right | left].
      intros Hin. apply Hout. split; [now apply list_elem_of_In | exact Hne].
  - split; [exact I | exact Hwf].
Qed.

Lemma layout_same_cells (st st' : State) :
  attendance st' = attendance st ->
  tableHeaders st' = tableHeaders st ->
  columnWidths st' = columnWidths st ->
  layout_in_sync st /\ layout_well_formed st ->
  layout_in_sync st' /\ layout_well_formed st'.
Proof.
  unfold layout_in_sync, layout_well_formed.
  intros -> -> ->. trivial.
Qed.

Ltac split_handler :=
  repeat match goal with
         | |- context [if ?c then _ else _] => destruct c
         | |- context [match ?x with _ => _ end] => destruct x
         end.

Lemma layout_step (st : State) (e : Event) :
  layout_in_sync st /\ layout_well_formed st ->
  layout_in_sync (step st e) /\ layout_well_formed (step st e).
Proof.
  intros Hinv.
  destruct e as [text|text|r1 r2| |id reply stored| |id reply s1 s2|
                 |id stored opened| |reply removed|removed|url stored|url stored];
    cbn [step].
  - now apply (layout_same_cells st).
  - now apply (layout_same_cells st).
  - unfold loadStoredToken, getItem.
    destruct r1, r2; try assumption.
    destruct (storage st !! "jwtToken") as [t|], (storage st !! "systemId") as [i|];
      cbn; split_handler; now apply (layout_same_cells st).
  - unfold handleRegister. split_handler; now apply (layout_same_cells st).
  - unfold handleRegister_resume.
    destruct reply, stored; now apply (layout_same_cells st).
  - unfold handleLogin. split_handler; now apply (layout_same_cells st).
  - unfold handleLogin_resume.
    destruct reply, s1, s2; now apply (layout_same_cells st).
  - unfold handleGmailAuth. split_handler; now apply (layout_same_cells st).
  - unfold handleGmailAuth_resume.
    destruct stored, opened; now apply (layout_same_cells st).
  - unfold fetchAttendance. split_handler; [now apply (layout_same_cells st) |].
    cbn [fst]. apply layout_replaceAttendance. now apply (layout_same_cells st).
  - unfold fetchAttendance_resume. destruct reply as [data|err].
    + set (st1 := replaceAttendance (Some (default [] data)) st).
      assert (H1 : layout_in_sync st1 /\ layout_well_formed st1)
        by now apply layout_replaceAttendance.
      destruct data as [[|first rest]|]; now apply (layout_same_cells st1).
    + destruct (bool_decide (response_status err = Some 401)), removed;
        now apply (layout_same_cells st).
  - unfold handleLogout. destruct removed; [| now apply (layout_same_cells st)].
    set (st1 := replaceAttendance None (setJwtToken "" (removeItem "jwtToken" st))).
    assert (H1 : layout_in_sync st1 /\ layout_well_formed st1).
    { apply layout_replaceAttendance. now apply (layout_same_cells st). }
    now apply (layout_same_cells st1).
  - unfold handleDeepLink.
    destruct url as [[[t|]]|]; cbn [token_param]; try assumption.
    destruct (truthy t), stored; assumption.
  - unfold initialURL.
    destruct url as [[[t|]]|]; cbn [token_param]; try assumption.
    destruct (truthy t), stored; assumption.
Qed.

Lemma layout_run (stored : gmap string string) (events : list Event) :
  layout_in_sync (run stored events) /\ layout_well_formed (run stored events).
Proof.
  unfold run.
  assert (Hinit : layout_in_sync (initialState stored)
                  /\ layout_well_formed (initialState stored)).
  { split; [exact I |]. intros h. cbn. rewrite lookup_empty. tauto. }
  revert Hinit. generalize (initialState stored).
  induction events as [|e events IH]; intros st Hinv; cbn [fold_left].
  - exact Hinv.
  - apply IH. now apply layout_step.
Qed.

(** After any sequence of events, in any order and with any replies, the
    layout cells are consistent: whenever a non-empty batch is on display,
    the headers and widths are the ones computed from that very batch;
    every width belongs to a header and lies in [100, 200]; every header
    has a width, except a header named [__proto__], which has none. *)
Theorem layout_consistent_after_any_run
  (stored : gmap string string) (events : list Event) :
  layout_in_sync (run stored events) /\ layout_well_formed (run stored events).
Proof. apply layout_run. Qed.

(** After any sequence of events, the width [renderCell] gives a cell of a
    table header other than [__proto__] is the width stored by the effect,
    a number in [100, 200].  For a header named [__proto__] it is
    [Object.prototype], not a number.  For a field that has no column it is
    the fallback 120, unless the name is a member of [Object.prototype]
    (one of the twelve names listed), in which case it is that member. *)
Theorem rendered_width_in_range
  (stored : gmap string string) (events : list Event) (h : string) :
  let st := run stored events in
  (In h (tableHeaders st) -> h <> "__proto__" ->
   exists w, columnWidths st !! h = Some w
             /\ widthFor st h = Pixels w /\ 100 <= w <= 200)
  /\ (h = "__proto__" -> widthFor st h = NotANumber "__proto__")
  /\ (~ In h (tableHeaders st) -> inherits h = false -> widthFor st h = Pixels 120)
  /\ (~ In h (tableHeaders st) -> inherits h = true -> widthFor st h = NotANumber h)
  /\ (inherits h = true
      <-> In h ["constructor"; "hasOwnProperty"; "isPrototypeOf";
                "propertyIsEnumerable"; "toLocaleString"; "toString"; "valueOf";
                "__proto__"; "__defineGetter__"; "__defineSetter__";
                "__lookupGetter__"; "__lookupSetter__"]).
Proof.
  cbn zeta.
  assert (Hnames : inherits h = true
                   <-> In h ["constructor"; "hasOwnProperty"; "isPrototypeOf";
                             "propertyIsEnumerable"; "toLocaleString"; "toString";
                             "valueOf"; "__proto__"; "__defineGetter__";
                             "__defineSetter__"; "__lookupGetter__";
                             "__lookupSetter__"]).
  { unfold inherits. rewrite existsb_exists. split.
    - intros (name & Hin & Heq). apply String.eqb_eq in Heq. subst name. exact Hin.
    - intros Hin. exists h. split; [exact Hin | apply String.eqb_refl]. }
  destruct (layout_run stored events) as [_ Hwf].
  specialize (Hwf h). unfold widthFor.
  destruct (columnWidths (run stored events) !! h) as [w|].
  - destruct Hwf as (Hin & Hne & Hrange).
    destruct (w =? 0)%Z eqn:Hzero; [lia |].
    split; [| split; [| split; [| split]]].
    + intros _ _. exists w. repeat split; lia.
    + intros Heq. contradiction.
    + intros Hout. contradiction.
    + intros Hout. contradiction.
    + exact Hnames.
  - split; [| split; [| split; [| split]]].
    + intros Hin Hne. destruct Hwf as [Hout | Heq]; contradiction.
    + intros ->. reflexivity.
    + intros _ ->. reflexivity.
    + intros _ ->. reflexivity.
    + exact Hnames.
Qed.

Lemma rendered_width_in_range_witness :
  let st := run ∅ [LinkArrives (Some (mkUrl (Some "tok"))) Resolved; FetchStarts;
                   FetchSettles (Fulfilled (Some sample_batch)) Resolved] in
  In "name" (tableHeaders st)
  /\ "name" <> "__proto__"
  /\ widthFor st "name" = Pixels 104
  /\ widthFor st "toString" = NotANumber "toString".
Proof.
  intros st. assert (Hin : In "name" (tableHeaders st)) by (left; reflexivity).
  assert (Hne : "name" <> "__proto__") by discriminate.
  split; [exact Hin |]. split; [exact Hne |]. split; [| reflexivity].
  destruct (proj1 (rendered_width_in_range ∅
              [LinkArrives (Some (mkUrl (Some "tok"))) Resolved; FetchStarts;
               FetchSettles (Fulfilled (Some sample_batch)) Resolved] "name") Hin Hne)
    as (w & Hw & Hfor & _).
  unfold st. rewrite Hfor. f_equal. vm_compute in Hw. congruence.
Defined.

Ltac other_keys :=
  repeat first [ rewrite lookup_insert_ne by congruence
               | rewrite lookup_delete_ne by congruence ];
  reflexivity.

Lemma storage_step (k : string) (st : State) (e : Event) :
  k <> "jwtToken" -> k <> "systemId" ->
  storage (step st e) !! k = storage st !! k.
Proof.
  intros Htoken Hid.
  destruct e as [text|text|r1 r2| |id reply stored| |id reply s1 s2|
                 |id stored opened| |reply removed|removed|url stored|url stored];
    cbn [step].
  - reflexivity.
  - reflexivity.
  - unfold loadStoredToken, getItem. destruct r1, r2; try reflexivity.
    destruct (storage st !! "jwtToken") as [t|], (storage st !! "systemId") as [i|];
      cbn; split_handler; reflexivity.
  - unfold handleRegister. split_handler; reflexivity.
  - unfold handleRegister_resume. destruct reply, stored; cbn; other_keys.
  - unfold handleLogin. split_handler; reflexivity.
  - unfold handleLogin_resume. destruct reply, s1, s2; cbn; other_keys.
  - unfold handleGmailAuth. split_handler; reflexivity.
  - unfold handleGmailAuth_resume. destruct stored, opened; cbn; other_keys.
  - unfold fetchAttendance. split_handler; reflexivity.
  - unfold fetchAttendance_resume. destruct reply as [[[|first rest]|]|err].
    + reflexivity.
    + reflexivity.
    + reflexivity.
    + destruct (bool_decide (response_status err = Some 401)), removed; cbn; other_keys.
  - unfold handleLogout. destruct removed; cbn; other_keys.
  - unfold handleDeepLink.
    destruct url as [[[t|]]|]; cbn [token_param]; try reflexivity.
    destruct (truthy t), stored; cbn; other_keys.
  - unfold initialURL.
    destruct url as [[[t|]]|]; cbn [token_param]; try reflexivity.
    destruct (truthy t), stored; cbn; other_keys.
Qed.

(** Whatever happens, the component writes and removes no storage key other
    than "jwtToken" and "systemId": every other key keeps the value it had
    when the component was mounted. *)
Theorem only_two_keys_written
  (stored : gmap string string) (events : list Event) (k : string) :
  k <> "jwtToken" -> k <> "systemId" ->
  storage (run stored events) !! k = stored !! k.
Proof.
  intros Htoken Hid. unfold run.
  change (stored !! k) with (storage (initialState stored) !! k).
  generalize (initialState stored).
  induction events as [|e events IH]; intros st; cbn [fold_left].
  - reflexivity.
  - rewrite IH. now apply storage_step.
Qed.

Lemma only_two_keys_written_witness :
  "theme" <> "jwtToken" /\ "theme" <> "systemId"
  /\ storage (run {["theme" := "dark"]}
                [TypeSystemId "21BCS001"; TypePassword "secret"; LoginStarts;
                 LoginSettles "21BCS001" (Fulfilled "tok") Resolved Resolved;
                 LogoutRuns Resolved]) !! "theme" = Some "dark".
Proof.
  split; [discriminate |]. split; [discriminate |].
  rewrite only_two_keys_written by discriminate. reflexivity.
Defined.

(** No handler clears or rewrites what was typed: apart from typing itself
    and the start-up load of the stored identity, every event leaves the
    identity and the password cells as they were. *)
Theorem typed_fields_kept (st : State) (e : Event) :
  (forall text, e <> TypeSystemId text) ->
  (forall text, e <> TypePassword text) ->
  (forall read_token read_id, e <> StartupLoaded read_token read_id) ->
  systemId (step st e) = systemId st /\ password (step st e) = password st.
Proof.
  intros Hid Hpw Hload.
  destruct e as [text|text|r1 r2| |id reply stored| |id reply s1 s2|
                 |id stored opened| |reply removed|removed|url stored|url stored];
    cbn [step].
  - now contradiction (Hid text).
  - now contradiction (Hpw text).
  - now contradiction (Hload r1 r2).
  - unfold handleRegister. split_handler; split; reflexivity.
  - unfold handleRegister_resume. destruct reply, stored; split; reflexivity.
  - unfold handleLogin. split_handler; split; reflexivity.
  - unfold handleLogin_resume. destruct reply, s1, s2; split; reflexivity.
  - unfold handleGmailAuth. split_handler; split; reflexivity.
  - unfold handleGmailAuth_resume. destruct stored, opened; split; reflexivity.
  - unfold fetchAttendance. split_handler; split; reflexivity.
  - unfold fetchAttendance_resume. destruct reply as [[[|first rest]|]|err].
    + split; reflexivity.
    + split; reflexivity.
    + split; reflexivity.
    + destruct (bool_decide (response_status err = Some 401)), removed;
        split; reflexivity.
  - unfold handleLogout. destruct removed; split; reflexivity.
  - unfold handleDeepLink.
    destruct url as [[[t|]]|]; cbn [token_param]; try (split; reflexivity).
    destruct (truthy t), stored; split; reflexivity.
  - unfold initialURL.
    destruct url as [[[t|]]|]; cbn [token_param]; try (split; reflexivity).
    destruct (truthy t), stored; split; reflexivity.
Qed.

Lemma typed_fields_kept_witness :
  let st := setPassword "secret" (setSystemId "21BCS001" (initialState ∅)) in
  (forall text, LogoutRuns Resolved <> TypeSystemId text)
  /\ password (step st (LogoutRuns Resolved)) = "secret".
Proof.
  intros st. split; [discriminate |].
  destruct (typed_fields_kept st (LogoutRuns Resolved)) as [_ Hpw];
    try discriminate.
  exact Hpw.
Defined.

(** ** Validation, exactly *)

Lemma trimEnd_keeps_head (c : ascii) (rest : string) :
  is_white_space c = false -> truthy (trimEnd (String c rest)) = true.
Proof.
  intros Hc. cbn [trimEnd]. destruct (trimEnd rest); [rewrite Hc |]; reflexivity.
Qed.

Lemma truthy_trim (s : string) : truthy (trim s) = negb (white_space_only s).
Proof.
  unfold trim. induction s as [|c rest IH]; [reflexivity |].
  cbn [trimStart white_space_only].
  destruct (is_white_space c) eqn:Hc; cbn [andb].
  - exact IH.
  - now apply trimEnd_keeps_head.
Qed.

(** When the identity and the password each hold a character that is not
    white space, [handleLogin] and [handleRegister] issue their request with
    both fields exactly as typed (untrimmed), blank both messages, raise
    their own flag and touch nothing else.  White space is TAB, LF, VT, FF,
    CR, SPACE and NO-BREAK SPACE. *)
Theorem filled_credentials_are_sent (st : State) :
  white_space_only (systemId st) = false ->
  white_space_only (password st) = false ->
  (snd (handleLogin st) = Some (PostLogin (systemId st) (password st))
   /\ loading (fst (handleLogin st)) = with_login true (loading st)
   /\ message (fst (handleLogin st)) = "" /\ error (fst (handleLogin st)) = ""
   /\ session_untouched st (fst (handleLogin st)))
  /\ (snd (handleRegister st) = Some (PostRegister (systemId st) (password st))
      /\ loading (fst (handleRegister st)) = with_register true (loading st)
      /\ message (fst (handleRegister st)) = "" /\ error (fst (handleRegister st)) = ""
      /\ session_untouched st (fst (handleRegister st)))
  /\ (forall c : ascii,
         is_white_space c = true
         <-> In (nat_of_ascii c) [9; 10; 11; 12; 13; 32; 160]%nat).
Proof.
  intros Hid Hpw. split; [| split].
  - unfold handleLogin, session_untouched.
    cbn [systemId password clearMessages setMessage setError].
    rewrite !truthy_trim, Hid, Hpw. cbn. repeat split.
  - unfold handleRegister, session_untouched.
    cbn [systemId password clearMessages setMessage setError].
    rewrite !truthy_trim, Hid, Hpw. cbn. repeat split.
  - intros c. destruct c as [[] [] [] [] [] [] [] []]; vm_compute;
      split; intros H; first [reflexivity | discriminate | tauto | intuition lia].
Qed.

Lemma filled_credentials_are_sent_witness :
  let st := setPassword "pass word " (setSystemId " 21BCS001" (initialState ∅)) in
  white_space_only (systemId st) = false
  /\ white_space_only (password st) = false
  /\ snd (handleLogin st) = Some (PostLogin " 21BCS001" "pass word ").
Proof.
  intros st. split; [reflexivity |]. split; [reflexivity |].
  destruct (filled_credentials_are_sent st eq_refl eq_refl) as ((Hreq & _) & _).
  exact Hreq.
Defined.

(** ** Login and registration *)

(** A login with filled fields, answered with a token, whose two storage
    writes resolve: the token is in its cell and under "jwtToken", the
    identity as typed is under "systemId", the success message is shown
    alone, the login flag is down again, and the signed-in screen shows
    exactly when the token is non-empty. *)
Theorem login_success (st : State) (token : string) :
  white_space_only (systemId st) = false ->
  white_space_only (password st) = false ->
  let st' := handleLogin_resume (systemId st) (Fulfilled token) Resolved Resolved
               (fst (handleLogin st)) in
  jwtToken st' = token
  /\ storage st' !! "jwtToken" = Some token
  /\ storage st' !! "systemId" = Some (systemId st)
  /\ message st' = "Login successful!"
  /\ error st' = ""
  /\ loading st' = with_login false (loading st)
  /\ (status st' = Active <-> truthy token = true).
Proof.
  intros Hid Hpw. unfold handleLogin.
  cbn [systemId password clearMessages setMessage setError].
  rewrite !truthy_trim, Hid, Hpw. cbn. unfold status. cbn.
  repeat split.
  - rewrite lookup_insert_ne by discriminate. apply lookup_insert_eq.
  - apply lookup_insert_eq.
  - destruct (truthy token); [reflexivity | discriminate].
  - intros ->. reflexivity.
Qed.

Lemma login_success_witness :
  let st := setPassword "secret" (setSystemId "21BCS001" (initialState ∅)) in
  white_space_only (systemId st) = false
  /\ white_space_only (password st) = false
  /\ storage (handleLogin_resume "21BCS001" (Fulfilled "tok") Resolved Resolved
                (fst (handleLogin st))) !! "jwtToken" = Some "tok".
Proof.
  intros st. split; [reflexivity |]. split; [reflexivity |].
  destruct (login_success st "tok" eq_refl eq_refl) as (_ & Hstored & _).
  exact Hstored.
Defined.

Lemma truthy_failure_value (err : Failure) (fallback : string) :
  truthy fallback = true -> truthy_error (failure_value err fallback) = true.
Proof.
  intros Hfb. unfold failure_value.
  destruct (response_data err) as [|text|[m|]]; cbn; try assumption; try reflexivity.
  - destruct (truthy text) eqn:Ht; cbn; assumption.
  - destruct (truthy m) eqn:Hm; cbn; [assumption | reflexivity].
Qed.


(** Registration never signs in: whatever the reply and the storage
    outcome, the token cell, the stored token, the records and the screen
    shown are as before; a successful reply whose storage write resolves
    leaves the identity under "systemId". *)
Theorem register_never_signs_in
  (st : State) (id : string) (reply : Reply (option string)) (stored : StorageResult) :
  let st' := handleRegister_resume id reply stored st in
  jwtToken st' = jwtToken st
  /\ status st' = status st
  /\ storage st' !! "jwtToken" = storage st !! "jwtToken"
  /\ attendance st' = attendance st
  /\ register (loading st') = false
  /\ (forall msg, reply = Fulfilled msg -> stored = Resolved ->
                  storage st' !! "systemId" = Some id
                  /\ message st' = or_else msg "Registration successful!").
Proof.
  destruct reply as [msg|err], stored; cbn;
    (split; [reflexivity |]); (split; [reflexivity |]);
    (split; [try reflexivity; now rewrite lookup_insert_ne by discriminate |]);
    (split; [reflexivity |]); (split; [reflexivity |]);
    intros m Hreply Hstored; try discriminate.
  injection Hreply as <-. split; [apply lookup_insert_eq | reflexivity].
Qed.

Lemma register_never_signs_in_witness :
  let st := setPassword "secret" (setSystemId "21BCS001" (initialState ∅)) in
  status (handleRegister_resume "21BCS001" (Fulfilled (Some "Registered")) Resolved
            (fst (handleRegister st))) = LoggedOut
  /\ storage (handleRegister_resume "21BCS001" (Fulfilled (Some "Registered")) Resolved
                (fst (handleRegister st))) !! "systemId" = Some "21BCS001".
Proof.
  intros st.
  destruct (register_never_signs_in (fst (handleRegister st)) "21BCS001"
              (Fulfilled (Some "Registered")) Resolved)
    as (_ & Hstatus & _ & _ & _ & Hstored).
  split; [exact Hstatus |].
  destruct (Hstored (Some "Registered") eq_refl eq_refl) as [Hid _]. exact Hid.
Defined.

Lemma initialURL_without_token (launch : option Url) (stored : StorageResult)
  (st : State) :
  carries_token launch = false -> initialURL launch stored st = st.
Proof.
  unfold carries_token, initialURL.
  destruct launch as [[[t|]]|]; cbn [token_param]; try reflexivity.
  now intros ->.
Qed.

Lemma mount_without_link (stored : gmap string string)
  (read_token read_id : StorageResult) (launch : option Url)
  (link_stored : StorageResult) (order : MountOrder) :
  carries_token launch = false ->
  mount stored read_token read_id launch link_stored order
  = match read_token, read_id with
    | Resolved, Resolved =>
        useStored (stored !! "jwtToken") (stored !! "systemId") (initialState stored)
    | _, _ => initialState stored
    end.
Proof.
  intros Hnone. unfold mount.
  destruct order; rewrite !(initialURL_without_token _ _ _ Hnone); reflexivity.
Qed.

(** A login whose reply arrives but whose token write is rejected is not
    saved: the token is in memory for now (with the login-failed error on
    display), storage is untouched, and if no token was stored before, the
    component mounted again over that storage, launched without a token
    link, shows the sign-in form. *)
Theorem unsaved_login_is_lost_on_restart
  (st : State) (id token : string) (stored_id read_token read_id : StorageResult)
  (launch : option Url) (link_stored : StorageResult) (order : MountOrder) :
  storage st !! "jwtToken" = None ->
  carries_token launch = false ->
  let st' := handleLogin_resume id (Fulfilled token) Rejects stored_id st in
  let again := mount (storage st') read_token read_id launch link_stored order in
  jwtToken st' = token
  /\ storage st' = storage st
  /\ error st' = "Login failed. Please check your credentials."
  /\ login (loading st') = false
  /\ jwtToken again = ""
  /\ status again = LoggedOut.
Proof.
  intros Hnone Hlaunch. cbn zeta. rewrite (mount_without_link _ _ _ _ _ _ Hlaunch).
  cbn. unfold useStored, status. cbn. rewrite Hnone.
  destruct read_token, read_id; cbn;
    destruct (storage st !! "systemId") as [[|c i]|]; repeat split.
Qed.

Lemma unsaved_login_is_lost_on_restart_witness :
  let st := setPassword "secret" (setSystemId "21BCS001" (initialState ∅)) in
  storage st !! "jwtToken" = None
  /\ carries_token None = false
  /\ status (handleLogin_resume "21BCS001" (Fulfilled "tok") Rejects Resolved st) = Active
  /\ status (mount (storage (handleLogin_resume "21BCS001" (Fulfilled "tok")
                               Rejects Resolved st))
                   Resolved Resolved None Resolved LoaderFirst) = LoggedOut.
Proof.
  intros st. split; [reflexivity |]. split; [reflexivity |]. split; [reflexivity |].
  destruct (unsaved_login_is_lost_on_restart st "21BCS001" "tok" Resolved
              Resolved Resolved None Resolved LoaderFirst eq_refl eq_refl)
    as (_ & _ & _ & _ & _ & Hout).
  exact Hout.
Defined.

(** Every continuation lowers its own flag, whatever the reply and the
    storage outcome, and leaves the three other flags as they were. *)
Theorem own_flag_lowered_others_kept (st : State) :
  (forall id reply stored,
      loading (handleRegister_resume id reply stored st)
      = with_register false (loading st))
  /\ (forall id reply s1 s2,
         loading (handleLogin_resume id reply s1 s2 st)
         = with_login false (loading st))
  /\ (forall reply removed,
         loading (fetchAttendance_resume reply removed st)
         = with_fetch false (loading st))
  /\ (forall id stored opened,
         loading (fst (handleGmailAuth_resume id stored opened st))
         = with_gmailAuth false (loading st)).
Proof.
  repeat split.
  - intros id [msg|err] []; reflexivity.
  - intros id [token|err] [] []; reflexivity.
  - intros [[[|first rest]|]|err] removed; try reflexivity.
    unfold fetchAttendance_resume.
    destruct (bool_decide (response_status err = Some 401)), removed; reflexivity.
  - intros id [] []; reflexivity.
Qed.

(** Once a login or a fetch that was really started has run to its end,
    exactly one of the two messages is showing, whatever the reply and the
    storage outcomes: the success message or the error, never both and
    never neither. *)
Theorem one_message_after_completion (st : State) :
  (white_space_only (systemId st) = false ->
   white_space_only (password st) = false ->
   forall id reply s1 s2,
     let st' := handleLogin_resume id reply s1 s2 (fst (handleLogin st)) in
     xorb (truthy (message st')) (truthy_error (error st')) = true)
  /\ (truthy (jwtToken st) = true ->
      forall reply removed,
        let st' := fetchAttendance_resume reply removed (fst (fetchAttendance st)) in
        xorb (truthy (message st')) (truthy_error (error st')) = true).
Proof.
  split.
  - intros Hid Hpw id reply s1 s2. unfold handleLogin.
    cbn [systemId password clearMessages setMessage setError].
    rewrite !truthy_trim, Hid, Hpw. cbn [negb orb fst].
    destruct reply as [token|err].
    + destruct s1, s2; reflexivity.
    + cbn. now rewrite truthy_failure_value.
  - intros Htoken reply removed. unfold fetchAttendance.
    cbn [jwtToken clearMessages setMessage setError].
    rewrite Htoken. cbn [negb fst].
    destruct reply as [[[|first rest]|]|err]; try reflexivity.
    unfold fetchAttendance_resume.
    destruct (bool_decide (response_status err = Some 401)).
    + destruct removed; reflexivity.
    + cbn. now rewrite truthy_failure_value.
Qed.

Lemma one_message_after_completion_witness :
  truthy (jwtToken sample_session) = true
  /\ message (fetchAttendance_resume (Failed (mkFailure None NoData)) Resolved
                (fst (fetchAttendance sample_session))) = ""
  /\ xorb (truthy (message (fetchAttendance_resume (Failed (mkFailure None NoData)) Resolved
                              (fst (fetchAttendance sample_session)))))
          (truthy_error
             (error (fetchAttendance_resume (Failed (mkFailure None NoData)) Resolved
                       (fst (fetchAttendance sample_session))))) = true.
Proof.
  split; [reflexivity |]. split; [reflexivity |].
  apply (proj2 (one_message_after_completion sample_session) eq_refl).
Defined.

(** ** Fetch failures other than 401 *)



(** ** Logout *)

(** Logging out twice is the same as logging out once, and after a logout
    [fetchAttendance] issues no request. *)
Theorem logout_idempotent (st : State) :
  handleLogout Resolved (handleLogout Resolved st) = handleLogout Resolved st
  /\ snd (fetchAttendance (handleLogout Resolved st)) = None
  /\ error (fst (fetchAttendance (handleLogout Resolved st)))
     = "Please login (or authenticate with Gmail) first.".
Proof.
  split; [| split; reflexivity].
  unfold handleLogout, replaceAttendance, useEffect_attendance, removeItem.
  cbn. now rewrite delete_delete_eq.
Qed.

(** ** Start-up and persistence *)


(** The mounted component shows the signed-in screen exactly when both
    start-up reads resolved and a non-empty token is stored, or the app was
    launched with a link that carries a non-empty token, in whichever order
    the two mount effects settle.  Mounting never loads records and writes
    no key but "jwtToken"; launched without a token link it leaves storage
    as it was. *)
Theorem mount_signs_in_iff_token_stored
  (stored : gmap string string) (read_token read_id : StorageResult)
  (launch : option Url) (link_stored : StorageResult) (order : MountOrder) :
  let st := mount stored read_token read_id launch link_stored order in
  (status st = Active
   <-> (read_token = Resolved /\ read_id = Resolved
        /\ exists t, stored !! "jwtToken" = Some t /\ truthy t = true)
       \/ carries_token launch = true)
  /\ attendance st = None
  /\ (forall k, k <> "jwtToken" -> storage st !! k = stored !! k)
  /\ (carries_token launch = false -> storage st = stored).
Proof.
  cbn zeta.
  assert (Hload : forall st0 : State,
             let st1 := match read_token, read_id with
                        | Resolved, Resolved =>
                            useStored (stored !! "jwtToken") (stored !! "systemId") st0
                        | _, _ => st0
                        end in
             attendance st1 = attendance st0 /\ storage st1 = storage st0
             /\ (truthy (jwtToken st1) = true
                 <-> (read_token = Resolved /\ read_id = Resolved
                      /\ exists t, stored !! "jwtToken" = Some t /\ truthy t = true)
                     \/ truthy (jwtToken st0) = true)).
  { intros st0. cbn zeta. unfold useStored.
    destruct read_token, read_id;
      try (repeat split; [now right | intros [(H1 & H2 & _) | H]; [discriminate | exact H]]).
    destruct (stored !! "jwtToken") as [t|]; [destruct (truthy t) eqn:Ht |];
      (destruct (stored !! "systemId") as [i|]; [destruct (truthy i) |]);
      cbn; rewrite ?Ht; repeat split;
      try (intros _; left; repeat split; exists t; now split);
      try (now right);
      try (intros [(_ & _ & t' & Heq & Ht') | H]; [congruence | exact H]). }
  assert (Hlink : forall st0 : State,
             let st1 := initialURL launch link_stored st0 in
             attendance st1 = attendance st0
             /\ (forall k, k <> "jwtToken" -> storage st1 !! k = storage st0 !! k)
             /\ (carries_token launch = false -> storage st1 = storage st0)
             /\ (truthy (jwtToken st1) = true
                 <-> truthy (jwtToken st0) = true \/ carries_token launch = true)).
  { intros st0. cbn zeta. unfold initialURL, carries_token.
    destruct launch as [[[t|]]|]; cbn [token_param];
      try (repeat split; [now left | intros [H | H]; [exact H | discriminate]]).
    destruct (truthy t) eqn:Ht;
      [| repeat split; [now left | intros [H | H]; [exact H | discriminate]]].
    destruct link_stored; cbn; rewrite Ht; repeat split;
      try discriminate; try (now right);
      intros k Hk; now rewrite lookup_insert_ne by congruence. }
  assert (Hstatus : forall st0 : State,
             status st0 = Active <-> truthy (jwtToken st0) = true).
  { intros st0. unfold status. destruct (truthy (jwtToken st0)); split;
      intros H; try reflexivity; discriminate. }
  unfold mount. destruct order.
  - destruct (Hload (initialState stored)) as (Ha1 & Hs1 & Ht1).
    destruct (Hlink (match read_token, read_id with
                     | Resolved, Resolved =>
                         useStored (stored !! "jwtToken") (stored !! "systemId")
                                   (initialState stored)
                     | _, _ => initialState stored
                     end)) as (Ha2 & Hk2 & Hs2 & Ht2).
    cbn zeta in *. rewrite Hstatus, Ht2, Ht1. rewrite Ha2, Ha1.
    split; [| split; [reflexivity | split]].
    + cbn. intuition discriminate.
    + intros k Hk. rewrite (Hk2 k Hk), Hs1. reflexivity.
    + intros Hnone. rewrite (Hs2 Hnone), Hs1. reflexivity.
  - destruct (Hlink (initialState stored)) as (Ha1 & Hk1 & Hs1 & Ht1).
    destruct (Hload (initialURL launch link_stored (initialState stored)))
      as (Ha2 & Hs2 & Ht2).
    cbn zeta in *. rewrite Hstatus, Ht2, Ht1. rewrite Ha2, Ha1.
    split; [| split; [reflexivity | split]].
    + cbn. intuition discriminate.
    + intros k Hk. rewrite Hs2, (Hk1 k Hk). reflexivity.
    + intros Hnone. rewrite Hs2, (Hs1 Hnone). reflexivity.
Qed.

Lemma mount_signs_in_iff_token_stored_witness :
  carries_token (Some (mkUrl (Some "abc"))) = true
  /\ status (mount ∅ Resolved Resolved (Some (mkUrl (Some "abc"))) Resolved LinkFirst)
     = Active
  /\ storage (mount ∅ Resolved Resolved (Some (mkUrl (Some "abc"))) Resolved LinkFirst)
       !! "jwtToken" = Some "abc".
Proof.
  split; [reflexivity |]. split; [| reflexivity].
  apply (proj1 (mount_signs_in_iff_token_stored ∅ Resolved Resolved
                  (Some (mkUrl (Some "abc"))) Resolved LinkFirst)).
  right. reflexivity.
Defined.



(** A logout survives a restart too: mounting again over the storage left
    by a resolved logout, launched without a token link, shows the sign-in
    form, with the identity field pre-filled by the stored identity when
    the reads resolve. *)
Theorem logout_survives_restart (st : State) (read_token read_id : StorageResult)
  (launch : option Url) (link_stored : StorageResult) (order : MountOrder) :
  carries_token launch = false ->
  let st' := handleLogout Resolved st in
  jwtToken (mount (storage st') read_token read_id launch link_stored order) = ""
  /\ status (mount (storage st') read_token read_id launch link_stored order)
     = LoggedOut
  /\ message (mount (storage st') read_token read_id launch link_stored order) = ""
  /\ systemId (mount (storage st') Resolved Resolved launch link_stored order)
     = default "" (storage st !! "systemId").
Proof.
  intros Hlaunch. cbn zeta. rewrite !(mount_without_link _ _ _ _ _ _ Hlaunch).
  unfold useStored, status. cbn.
  rewrite lookup_delete_eq.
  rewrite lookup_delete_ne by discriminate.
  destruct read_token, read_id;
    destruct (storage st !! "systemId") as [[|c i]|]; cbn; repeat split.
Qed.

Lemma logout_survives_restart_witness :
  carries_token (Some (mkUrl None)) = false
  /\ status (mount (storage (handleLogout Resolved sample_session))
                   Resolved Resolved (Some (mkUrl None)) Resolved LinkFirst)
     = LoggedOut.
Proof.
  split; [reflexivity |].
  destruct (logout_survives_restart sample_session Resolved Resolved
              (Some (mkUrl None)) Resolved LinkFirst eq_refl) as (_ & Hout & _).
  exact Hout.
Defined.

(** ** Deep links *)

(** A link changes at most the token, the success message and the stored
    token: identity, password, records, layout, flags, error and the stored
    identity are as before on both link paths; and a link with no URL, no
    token parameter or an empty one changes nothing at all. *)
Theorem link_touches_token_only
  (st : State) (url : option Url) (stored : StorageResult) :
  beside_token_untouched st (handleDeepLink url stored st)
  /\ beside_token_untouched st (initialURL url stored st)
  /\ (carries_token url = false ->
      handleDeepLink url stored st = st /\ initialURL url stored st = st).
Proof.
  unfold beside_token_untouched, handleDeepLink, initialURL, carries_token.
  destruct url as [[[t|]]|]; cbn [token_param]; try (repeat split; fail).
  destruct (truthy t), stored; cbn; repeat split;
    try discriminate; now rewrite lookup_insert_ne by discriminate.
Qed.

Lemma link_touches_token_only_witness :
  carries_token (Some (mkUrl (Some ""))) = false
  /\ handleDeepLink (Some (mkUrl (Some ""))) Resolved sample_session = sample_session.
Proof.
  split; [reflexivity |].
  destruct (link_touches_token_only sample_session (Some (mkUrl (Some ""))) Resolved)
    as (_ & _ & Hsame).
  destruct (Hsame eq_refl) as [Hlistener _]. exact Hlistener.
Defined.

(** When the storage write of a link's token is rejected, the two link paths
    part: the listener, which awaits the write, leaves the state unchanged;
    the initial-URL path, which does not, signs in with the token in memory
    only. *)
Theorem link_paths_differ_on_rejected_write (st : State) (t : string) :
  truthy t = true ->
  handleDeepLink (Some (mkUrl (Some t))) Rejects st = st
  /\ (let st' := initialURL (Some (mkUrl (Some t))) Rejects st in
      jwtToken st' = t
      /\ status st' = Active
      /\ storage st' = storage st
      /\ message st' = "Gmail authentication complete!").
Proof.
  intros Ht. unfold handleDeepLink, initialURL, status. cbn [token_param].
  rewrite Ht. cbn. rewrite Ht. repeat split.
Qed.

Lemma link_paths_differ_on_rejected_write_witness :
  truthy "abc" = true
  /\ handleDeepLink (Some (mkUrl (Some "abc"))) Rejects (initialState ∅) = initialState ∅
  /\ jwtToken (initialURL (Some (mkUrl (Some "abc"))) Rejects (initialState ∅)) = "abc".
Proof.
  split; [reflexivity |].
  destruct (link_paths_differ_on_rejected_write (initialState ∅) "abc" eq_refl)
    as (Hsame & Htok & _).
  split; assumption.
Defined.

(** ** The Gmail hand-off *)

(** [handleGmailAuth] validates the identity, and only the identity.  An
    identity that is empty or white space only is refused: nothing is
    handed off, no flag is raised and only the messages change.  With an
    identity that holds a non-white-space character it goes on whatever the
    password.  When the identity write resolves, the URL handed to the
    browser is the service address followed by "/auth/gmail?systemId=" and
    the encoded identity, and the identity is stored; when the write is
    rejected no URL is opened and storage is as before.  In no case does
    the hand-off sign in: token cell and stored token are untouched. *)
Theorem gmail_handoff (st : State) (opened : OpenResult) :
  (white_space_only (systemId st) = true ->
   snd (handleGmailAuth st) = None
   /\ error (fst (handleGmailAuth st))
      = "Please enter your system ID before Gmail authentication."
   /\ message (fst (handleGmailAuth st)) = ""
   /\ only_messages_differ st (fst (handleGmailAuth st)))
  /\ (white_space_only (systemId st) = false ->
      let st1 := fst (handleGmailAuth st) in
      let done := handleGmailAuth_resume (systemId st) Resolved opened st1 in
      let failed := handleGmailAuth_resume (systemId st) Rejects opened st1 in
      snd (handleGmailAuth st) = Some (systemId st)
      /\ loading st1 = with_gmailAuth true (loading st)
      /\ snd done
         = Some ("https://sharda-attendance-backend.onrender.com/auth/gmail?systemId="
                 ++ encodeURIComponent (systemId st))
      /\ storage (fst done) !! "systemId" = Some (systemId st)
      /\ (jwtToken (fst done) = jwtToken st
          /\ storage (fst done) !! "jwtToken" = storage st !! "jwtToken")
      /\ (snd failed = None /\ storage (fst failed) = storage st
          /\ jwtToken (fst failed) = jwtToken st
          /\ error (fst failed)
             = "Failed to initiate Gmail authentication. Please try again.")
      /\ gmailAuth (loading (fst done)) = false
      /\ gmailAuth (loading (fst failed)) = false).
Proof.
  split; intros Hid; unfold handleGmailAuth, only_messages_differ;
    cbn [systemId clearMessages setMessage setError];
    rewrite truthy_trim, Hid; cbn [negb fst snd].
  - cbn. repeat split.
  - destruct opened; cbn; repeat split;
      try apply lookup_insert_eq; now rewrite lookup_insert_ne by discriminate.
Qed.

Lemma gmail_handoff_witness :
  let st := setSystemId "2021 BCS/7" (initialState ∅) in
  (white_space_only (systemId st) = false
   /\ password st = ""
   /\ snd (handleGmailAuth_resume "2021 BCS/7" Resolved Opened (fst (handleGmailAuth st)))
      = Some "https://sharda-attendance-backend.onrender.com/auth/gmail?systemId=2021%20BCS%2F7")
  /\ (white_space_only (systemId (initialState ∅)) = true
      /\ snd (handleGmailAuth (initialState ∅)) = None).
Proof.
  intros st. split.
  - split; [reflexivity |]. split; [reflexivity |].
    destruct (proj2 (gmail_handoff st Opened) eq_refl) as (_ & _ & Hurl & _).
    exact Hurl.
  - split; [reflexivity |].
    destruct (proj1 (gmail_handoff (initialState ∅) Opened) eq_refl) as (Hnone & _).
    exact Hnone.
Defined.

(** ** [encodeURIComponent] *)

Lemma all_chars_app (p : ascii -> bool) (s t : string) :
  all_chars p (s ++ t) = all_chars p s && all_chars p t.
Proof.
  induction s as [|c s IH]; [reflexivity |].
  change (String c s ++ t) with (String c (s ++ t)). cbn [all_chars].
  rewrite IH. now rewrite andb_assoc.
Qed.

Lemma escape_is_plain (c : ascii) :
  all_chars (fun x => is_unreserved x || Ascii.eqb x "%") (escape c) = true.
Proof. destruct c as [[] [] [] [] [] [] [] []]; reflexivity. Qed.

(** The encoded identity is made of letters, digits, [- _ . ! ~ * ' ( )]
    and [%] only, so it cannot hold a character that would end or split
    the query ([&], [=], [#], [?], [/], [+] or a blank); a string made of
    unreserved characters only is left as it is. *)
Theorem encoded_identity_is_plain (s : string) :
  all_chars (fun x => is_unreserved x || Ascii.eqb x "%") (encodeURIComponent s) = true
  /\ all_chars (fun x => negb (existsb (Ascii.eqb x)
                                 ["&"; "="; "#"; "?"; "/"; "+"; " "]%char))
               (encodeURIComponent s) = true
  /\ (all_chars is_unreserved s = true -> encodeURIComponent s = s).
Proof.
  assert (Hplain : all_chars (fun x => is_unreserved x || Ascii.eqb x "%")
                             (encodeURIComponent s) = true).
  { induction s as [|c s IH]; [reflexivity |].
    cbn [encodeURIComponent]. destruct (is_unreserved c) eqn:Hc.
    - cbn [all_chars]. now rewrite Hc, IH.
    - rewrite all_chars_app, escape_is_plain, IH. reflexivity. }
  split; [exact Hplain |]. split.
  - revert Hplain. generalize (encodeURIComponent s) as e.
    induction e as [|c e IH]; [reflexivity |].
    cbn [all_chars]. intros Hall.
    apply andb_true_iff in Hall as [Hc He]. rewrite (IH He), andb_true_r.
    clear -Hc. destruct c as [[] [] [] [] [] [] [] []]; try reflexivity; discriminate Hc.
  - clear Hplain. induction s as [|c s IH]; [reflexivity |].
    cbn [all_chars encodeURIComponent]. intros Hall.
    apply andb_true_iff in Hall as [Hc Hs]. now rewrite Hc, (IH Hs).
Qed.

Lemma encoded_identity_is_plain_witness :
  all_chars is_unreserved "21BCS001" = true
  /\ encodeURIComponent "21BCS001" = "21BCS001".
Proof.
  split; [reflexivity |].
  apply (proj2 (proj2 (encoded_identity_is_plain "21BCS001"))). reflexivity.
Defined.

Lemma unescape_escape (c : ascii) (rest : string) :
  unescape (escape c ++ rest) = Some (c, rest).
Proof. destruct c as [[] [] [] [] [] [] [] []]; reflexivity. Qed.

Lemma escape_starts_with_percent (c : ascii) (rest : string) :
  exists tail, escape c ++ rest = String "%" tail.
Proof.
  unfold escape. destruct (nat_of_ascii c <? 128)%nat; eexists; reflexivity.
Qed.

(** Different identities are encoded differently: [encodeURIComponent] is
    injective. *)
Theorem encodeURIComponent_injective (s t : string) :
  encodeURIComponent s = encodeURIComponent t -> s = t.
Proof.
  revert t. induction s as [|c s IH]; intros t Heq.
  - destruct t as [|d t]; [reflexivity |].
    cbn [encodeURIComponent] in Heq. destruct (is_unreserved d); [discriminate |].
    destruct (escape_starts_with_percent d (encodeURIComponent t)) as [tail Htail].
    rewrite Htail in Heq. discriminate.
  - destruct t as [|d t]; cbn [encodeURIComponent] in Heq.
    + destruct (is_unreserved c); [discriminate |].
      destruct (escape_starts_with_percent c (encodeURIComponent s)) as [tail Htail].
      rewrite Htail in Heq. discriminate.
    + destruct (is_unreserved c) eqn:Hc, (is_unreserved d) eqn:Hd.
      * injection Heq as -> Heq. f_equal. now apply IH.
      * destruct (escape_starts_with_percent d (encodeURIComponent t)) as [tail Htail].
        rewrite Htail in Heq. injection Heq as -> _. discriminate Hc.
      * destruct (escape_starts_with_percent c (encodeURIComponent s)) as [tail Htail].
        rewrite Htail in Heq. injection Heq as <- _. discriminate Hd.
      * apply (f_equal unescape) in Heq. rewrite !unescape_escape in Heq.
        injection Heq as -> Heq. f_equal. now apply IH.
Qed.

Lemma encodeURIComponent_injective_witness :
  encodeURIComponent "a b" = encodeURIComponent "a b" /\ "a b" = "a b".
Proof.
  split; [reflexivity |].
  apply encodeURIComponent_injective. reflexivity.
Defined.

(** ** Buttons *)

(** No double submission: once a press of Login, Register, Fetch or the
    Gmail button has started its call, pressing the same button again before
    the call has ended issues nothing and changes nothing. *)
Theorem no_double_submit (st : State) :
  (forall req, snd (pressLogin st) = Some req ->
               pressLogin (fst (pressLogin st)) = (fst (pressLogin st), None))
  /\ (forall req, snd (pressRegister st) = Some req ->
                  pressRegister (fst (pressRegister st)) = (fst (pressRegister st), None))
  /\ (forall req, snd (pressFetch st) = Some req ->
                  pressFetch (fst (pressFetch st)) = (fst (pressFetch st), None))
  /\ (forall id, snd (pressGmailAuth st) = Some id ->
                 pressGmailAuth (fst (pressGmailAuth st))
                 = (fst (pressGmailAuth st), None)).
Proof.
  repeat split; intros req Hreq.
  - assert (Hflag : login (loading (fst (pressLogin st))) = true).
    { revert Hreq. unfold pressLogin.
      destruct (showsForm st && negb (login (loading st))); [| discriminate].
      unfold handleLogin.
      destruct (negb (truthy (trim (systemId (clearMessages st))))
                || negb (truthy (trim (password (clearMessages st)))));
        [discriminate | reflexivity]. }
    remember (fst (pressLogin st)) as st'. unfold pressLogin.
    now rewrite Hflag, andb_false_r.
  - assert (Hflag : register (loading (fst (pressRegister st))) = true).
    { revert Hreq. unfold pressRegister.
      destruct (showsForm st && negb (register (loading st))); [| discriminate].
      unfold handleRegister.
      destruct (negb (truthy (trim (systemId (clearMessages st))))
                || negb (truthy (trim (password (clearMessages st)))));
        [discriminate | reflexivity]. }
    remember (fst (pressRegister st)) as st'. unfold pressRegister.
    now rewrite Hflag, andb_false_r.
  - assert (Hflag : fetch (loading (fst (pressFetch st))) = true).
    { revert Hreq. unfold pressFetch.
      destruct (negb (showsForm st) && negb (fetch (loading st))); [| discriminate].
      unfold fetchAttendance.
      destruct (negb (truthy (jwtToken (clearMessages st))));
        [discriminate | reflexivity]. }
    remember (fst (pressFetch st)) as st'. unfold pressFetch.
    now rewrite Hflag, andb_false_r.
  - assert (Hflag : gmailAuth (loading (fst (pressGmailAuth st))) = true).
    { revert Hreq. unfold pressGmailAuth.
      destruct (showsForm st && negb (gmailAuth (loading st))); [| discriminate].
      unfold handleGmailAuth.
      destruct (negb (truthy (trim (systemId (clearMessages st)))));
        [discriminate | reflexivity]. }
    remember (fst (pressGmailAuth st)) as st'. unfold pressGmailAuth.
    now rewrite Hflag, andb_false_r.
Qed.

Lemma no_double_submit_witness :
  snd (pressFetch sample_session) = Some (PostAttendance "tok")
  /\ snd (pressFetch (fst (pressFetch sample_session))) = None.
Proof.
  split; [reflexivity |].
  rewrite (proj1 (proj2 (proj2 (no_double_submit sample_session)))
             (PostAttendance "tok") eq_refl).
  reflexivity.
Defined.

(** Through its button a fetch either goes out or does nothing: a press
    that issues no request leaves the state untouched (the "please login"
    error cannot come up this way), and a request that goes out carries the
    current, non-empty token, with the records cleared and the fetch flag
    raised.  The logout button does nothing while the sign-in form shows. *)
Theorem signed_in_buttons (st : State) :
  (snd (pressFetch st) = None -> fst (pressFetch st) = st)
  /\ (forall req, snd (pressFetch st) = Some req ->
                  req = PostAttendance (jwtToken st)
                  /\ truthy (jwtToken st) = true
                  /\ attendance (fst (pressFetch st)) = None
                  /\ fetch (loading (fst (pressFetch st))) = true)
  /\ (forall removed, showsForm st = true -> pressLogout removed st = st).
Proof.
  unfold pressFetch, pressLogout, showsForm, fetchAttendance.
  cbn [jwtToken clearMessages setMessage setError].
  destruct (truthy (jwtToken st)) eqn:Htoken; cbn [negb andb].
  - destruct (fetch (loading st)); cbn [negb fst snd].
    + repeat split; try discriminate.
    + repeat split; try discriminate. congruence.
  - repeat split; discriminate.
Qed.

Lemma signed_in_buttons_witness :
  snd (pressFetch (initialState ∅)) = None
  /\ fst (pressFetch (initialState ∅)) = initialState ∅
  /\ error (fst (pressFetch (initialState ∅))) = "".
Proof.
  split; [reflexivity |].
  rewrite (proj1 (signed_in_buttons (initialState ∅)) eq_refl).
  split; reflexivity.
Defined.
